(** * opampnoise: the noise engine of [opampnoise/opampnoise.py]

    The engine is a set of closed-form formulas on Python floats.  It is
    embedded twice.

    Over the reals (modules [Py] and [Np] and the functions that follow
    them) every float is read as a real number.  This reading serves for
    what does not depend on rounding: which branch the truthiness test
    [not (filter_res or filter_cap)] takes, which division raises
    [ZeroDivisionError], the [TypeError] of a [None] operand, the line
    printed by a call that returns, and the thermal noise formula.

    Over binary64 (modules [Py64] and [Engine64]) every float is a binary64
    value and every operation is rounded as Python and numpy round it.
    This reading serves for everything that depends on the values
    computed: the comparisons that choose a branch or a diagnostic, the
    [OverflowError] of a Python square, the product that underflows to
    zero, and the values returned.

    Both keep what Python adds on top of the arithmetic:
    - [/] on Python floats raises [ZeroDivisionError] on a zero divisor;
    - an arithmetic operator with a [None] operand raises [TypeError];
    - [np.sqrt] of a negative number is [nan] (a warning, not an exception),
      and [nan] propagates through arithmetic and makes comparisons false;
    - [not (a or b)] follows Python truthiness ([None] and [0.0] are falsy);
    - [print] appends a line to standard output. *)

From Stdlib Require Import Floats ZArith Lia Bool.
From Stdlib Require Import Reals Lra List String Ascii.
Import ListNotations.

Set Warnings "-inexact-float".

Open Scope R_scope.

(** The newline that opens each diagnostic. *)
Definition nl : string := String (ascii_of_nat 10) EmptyString.

(** * The engine over the reals *)

(** ** Python layer: exceptions, standard output, optional floats *)

Module Py.

Inductive exn : Type :=
| ZeroDivisionError
| TypeError.

(** One line written by [print].  [AtBandwidth x] stands for the f-string
    "At bandwidth of: {x} Hz". *)
Inductive line : Type :=
| Text (s : string)
| AtBandwidth (hz : R).

(** A computation either raises or returns a value with the lines printed.
    Lines printed before an exception are dropped: in this module every
    [print] comes after the last operation that can raise. *)
Definition M (A : Type) : Type := (exn + A * list line)%type.

Definition ret {A} (a : A) : M A := inr (a, []).

Definition raise {A} (e : exn) : M A := inl e.

Definition bind {A B} (m : M A) (f : A -> M B) : M B :=
  match m with
  | inl e => inl e
  | inr (a, out) =>
      match f a with
      | inl e => inl e
      | inr (b, out') => inr (b, out ++ out')
      end
  end.

Definition print (l : line) : M unit := inr (tt, [l]).

(** What the caller receives: the exception or the returned value. *)
Definition returned {A} (m : M A) : exn + A :=
  match m with
  | inl e => inl e
  | inr (a, _) => inr a
  end.

Definition stdout {A} (m : M A) : list line :=
  match m with
  | inl _ => []
  | inr (_, out) => out
  end.

(** An argument that is either [None] or a float. *)
Inductive obj : Type :=
| PyNone
| PyFloat (r : R).

(** [bool(o)] *)
Definition truth (o : obj) : bool :=
  match o with
  | PyNone => false
  | PyFloat r => if Req_dec_T r 0 then false else true
  end.

(** [a or b] *)
Definition or_ (a b : obj) : obj := if truth a then a else b.

(** [x / y] on floats *)
Definition truediv (x y : R) : M R :=
  if Req_dec_T y 0 then raise ZeroDivisionError else ret (x / y).

(** [x * o] where [x] is a float and [o] may be [None] *)
Definition mul (x : R) (o : obj) : M R :=
  match o with
  | PyNone => raise TypeError
  | PyFloat r => ret (x * r)
  end.

End Py.

Notation "x <- m ;; k" := (Py.bind m (fun x => k))
  (at level 61, m at next level, right associativity).
Notation "m ;;; k" := (Py.bind m (fun _ => k))
  (at level 61, right associativity).

(** ** numpy layer: float64 with nan *)

Module Np.

Inductive float64 : Type :=
| Fin (r : R)
| NaN.

Definition lift2 (f : R -> R -> R) (x y : float64) : float64 :=
  match x, y with
  | Fin a, Fin b => Fin (f a b)
  | _, _ => NaN
  end.

Definition add := lift2 Rplus.
Definition mul := lift2 Rmult.

(** [x ** 2] *)
Definition square (x : float64) : float64 :=
  match x with
  | Fin a => Fin (a ^ 2)
  | NaN => NaN
  end.

(** [np.sqrt(x)]: nan below zero *)
Definition sqrt (x : float64) : float64 :=
  match x with
  | Fin a => if Rlt_dec a 0 then NaN else Fin (R_sqrt.sqrt a)
  | NaN => NaN
  end.

(** [np.pi] *)
Definition pi : R := PI.

End Np.

Coercion Np.Fin : R >-> Np.float64.

(** ** The engine, function by function *)

Definition inverting_opamp_gain (feedback_res g_res : R) : Py.M R :=
  inv_gain <- Py.truediv feedback_res g_res ;;
  Py.ret inv_gain.

Definition parallel_res (res_one res_two : R) : Py.M R :=
  parallel_res <- Py.truediv (res_one * res_two) (res_one + res_two) ;;
  Py.ret parallel_res.

(** The two locals of [resistor_thermal_noise]: the Boltzmann constant in
    J/K as the code writes it, and room temperature in K. *)
Definition k : R := 1.38e-23.
Definition temp : R := 289.

Definition resistor_thermal_noise (res : R) : Np.float64 :=
  let thermal_noise := Np.sqrt (4 * k * temp * res) in
  thermal_noise.

Definition noise_gain (feedback_res res_g : R) : Py.M R :=
  q <- Py.truediv feedback_res res_g ;;
  let gain_of_noise := 1 + q in
  Py.ret gain_of_noise.

(** Default of the keyword argument [filter_order]. *)
Definition filter_order_default : R := 1.57.

Definition opamp_broadband_noise (opamp_GBW noise_gain filter_order : R) : Py.M R :=
  q <- Py.truediv opamp_GBW noise_gain ;;
  let broadband_noise_freq := filter_order * q in
  Py.ret broadband_noise_freq.

(** [np.sqrt(v**2 + current_noise**2 + resistors_voltage_noise**2)] *)
Definition quadrature (v current_noise : R) (resistors_voltage_noise : Np.float64)
  : Np.float64 :=
  Np.sqrt (Np.add (Np.add (v ^ 2) (current_noise ^ 2))
                  (Np.square resistors_voltage_noise)).

(** The test [not (filter_res or filter_cap)]. *)
Definition no_filter (filter_res filter_cap : Py.obj) : bool :=
  negb (Py.truth (Py.or_ filter_res filter_cap)).

Definition total_input_noise_rms
  (opamp_input_voltage_noise opamp_input_current_noise
   feedback_res g_res opamp_GBW : R) (filter_res filter_cap : Py.obj)
  : Py.M Np.float64 :=
  Req <- parallel_res feedback_res g_res ;;
  let current_noise := Req * opamp_input_current_noise in
  Req' <- parallel_res feedback_res g_res ;;
  let resistors_voltage_noise := resistor_thermal_noise Req' in
  opamp_noise_gain <- noise_gain feedback_res g_res ;;
  broadband_noise <-
    opamp_broadband_noise opamp_GBW opamp_noise_gain filter_order_default ;;
  if no_filter filter_res filter_cap then
    let total_input_voltage_noise :=
      Np.mul (quadrature opamp_input_voltage_noise current_noise
                resistors_voltage_noise)
             (Np.sqrt broadband_noise) in
    Py.print (Py.AtBandwidth broadband_noise) ;;;
    Py.ret total_input_voltage_noise
  else
    d1 <- Py.mul (2 * Np.pi) filter_res ;;
    d2 <- Py.mul d1 filter_cap ;;
    rc_freq <- Py.truediv 1 d2 ;;
    if Rgt_dec rc_freq broadband_noise then
      let total_input_voltage_noise :=
        Np.mul (quadrature opamp_input_voltage_noise current_noise
                  resistors_voltage_noise)
               (Np.sqrt broadband_noise) in
      Py.print (Py.AtBandwidth broadband_noise) ;;;
      Py.ret total_input_voltage_noise
    else
      let total_input_voltage_noise :=
        Np.mul (quadrature opamp_input_voltage_noise current_noise
                  resistors_voltage_noise)
               (Np.sqrt (1.57 * rc_freq)) in
      Py.print (Py.AtBandwidth rc_freq) ;;;
      Py.ret total_input_voltage_noise.

(** ** Closed forms of the intermediate quantities

    Real-valued expressions for what [total_input_noise_rms] computes on the
    way; the lemmas below relate the monadic code to them. *)

Definition Req_of (feedback_res g_res : R) : R :=
  feedback_res * g_res / (feedback_res + g_res).

Definition density_of (v i feedback_res g_res : R) : R :=
  sqrt (v ^ 2 + (Req_of feedback_res g_res * i) ^ 2
        + sqrt (4 * k * temp * Req_of feedback_res g_res) ^ 2).

Definition broadband_of (feedback_res g_res opamp_GBW : R) : R :=
  filter_order_default * (opamp_GBW / (1 + feedback_res / g_res)).

Definition rc_freq_of (filter_res filter_cap : R) : R :=
  1 / (2 * PI * filter_res * filter_cap).

(** * The engine on binary64 floats

    The same functions with every float a binary64 value and every
    operation rounded as Python and numpy round it.  On top of the
    arithmetic:
    - [/] on Python floats raises [ZeroDivisionError] on a divisor equal to
      zero (of either sign) and otherwise never raises: it overflows to an
      infinity and underflows to zero;
    - [x ** 2] on a Python float raises [OverflowError] when [x] is finite
      and the square is not; on a numpy float it returns the infinity.  The
      square itself is modelled as the correctly rounded product [x * x];
      the C library's [pow], which Python calls, returns that value or,
      rarely, the float next to it;
    - [float * None] raises [TypeError];
    - [np.sqrt] of a negative number is nan; comparisons with nan are false;
    - [bool(x)] is false for [0.0] and [-0.0] only;
    - [print] appends a line to standard output, and what was printed stays
      printed when a later operation raises. *)

Module Py64.

Local Open Scope float_scope.

Inductive exn : Type :=
| ZeroDivisionError
| TypeError
| OverflowError.

(** One line written by [print]; the last three stand for the f-strings
    "At bandwidth of: {hz} Hz", "Broadband noise: {hz} Hz" and
    "Total output noise: {x} Vrms". *)
Inductive line : Type :=
| Text (s : string)
| AtBandwidth (hz : float)
| BroadbandNoise (hz : float)
| TotalOutputNoise (x : float).

Definition M (A : Type) : Type := ((exn + A) * list line)%type.

Definition ret {A} (a : A) : M A := (inr a, []).

Definition raise {A} (e : exn) : M A := (inl e, []).

Definition bind {A B} (m : M A) (f : A -> M B) : M B :=
  match m with
  | (inl e, out) => (inl e, out)
  | (inr a, out) =>
      match f a with
      | (r, out') => (r, out ++ out')
      end
  end.

Definition print (l : line) : M unit := (inr tt, [l]).

Definition returned {A} (m : M A) : exn + A := fst m.

Definition stdout {A} (m : M A) : list line := snd m.

(** An argument that is either [None] or a float. *)
Inductive obj : Type :=
| PyNone
| PyFloat (x : float).

(** [bool(o)] *)
Definition truth (o : obj) : bool :=
  match o with
  | PyNone => false
  | PyFloat x => negb (x =? 0)
  end.

(** [a or b] *)
Definition or_ (a b : obj) : obj := if truth a then a else b.

(** [x / y] on Python floats *)
Definition truediv (x y : float) : M float :=
  if y =? 0 then raise ZeroDivisionError else ret (x / y).

(** [x * o] where [x] is a float and [o] may be [None] *)
Definition mul (x : float) (o : obj) : M float :=
  match o with
  | PyNone => raise TypeError
  | PyFloat y => ret (x * y)
  end.

(** The square of a finite float is infinite. *)
Definition overflows (x : float) : bool :=
  is_infinity (x * x) && negb (is_infinity x).

(** [x ** 2] on a Python float *)
Definition pow2 (x : float) : M float :=
  if overflows x then raise OverflowError else ret (x * x).

(** [x ** 2] on a numpy float *)
Definition np_square (x : float) : float := x * x.

(** [np.sqrt(x)] *)
Definition np_sqrt (x : float) : float := PrimFloat.sqrt x.

(** [np.pi] *)
Definition pi : float := 3.141592653589793.

End Py64.

Notation "x <~ m ;; k" := (Py64.bind m (fun x => k))
  (at level 61, m at next level, right associativity).
Notation "m ~;; k" := (Py64.bind m (fun _ => k))
  (at level 61, right associativity).

Module Engine64.

Import Py64.
Local Open Scope float_scope.

Definition inverting_opamp_gain (feedback_res g_res : float) : M float :=
  inv_gain <~ truediv feedback_res g_res ;;
  ret inv_gain.

Definition parallel_res (res_one res_two : float) : M float :=
  parallel_res <~ truediv (res_one * res_two) (res_one + res_two) ;;
  ret parallel_res.

Definition k : float := 1.38e-23.
Definition temp : float := 289.

Definition resistor_thermal_noise (res : float) : float :=
  let thermal_noise := np_sqrt (4 * k * temp * res) in
  thermal_noise.

Definition noise_gain (feedback_res res_g : float) : M float :=
  q <~ truediv feedback_res res_g ;;
  let gain_of_noise := 1 + q in
  ret gain_of_noise.

Definition opamp_circuit_current_noise
  (feedback_res g_res opamp_input_current_noise : float) : M float :=
  Req <~ parallel_res feedback_res g_res ;;
  let current_noise := Req * opamp_input_current_noise in
  ret current_noise.

(** Default of the keyword argument [filter_order]. *)
Definition filter_order_default : float := 1.57.

Definition opamp_broadband_noise (opamp_GBW noise_gain filter_order : float)
  : M float :=
  q <~ truediv opamp_GBW noise_gain ;;
  let broadband_noise_freq := filter_order * q in
  ret broadband_noise_freq.

(** [np.sqrt(v**2 + current_noise**2 + resistors_voltage_noise**2)]: the
    first two squares are Python's, the third is numpy's. *)
Definition quadrature (v current_noise resistors_voltage_noise : float)
  : M float :=
  v2 <~ pow2 v ;;
  c2 <~ pow2 current_noise ;;
  ret (np_sqrt (v2 + c2 + np_square resistors_voltage_noise)).

(** The test [not (filter_res or filter_cap)]. *)
Definition no_filter (filter_res filter_cap : obj) : bool :=
  negb (truth (or_ filter_res filter_cap)).

Definition total_input_noise_rms
  (opamp_input_voltage_noise opamp_input_current_noise
   feedback_res g_res opamp_GBW : float) (filter_res filter_cap : obj)
  : M float :=
  Req <~ parallel_res feedback_res g_res ;;
  let current_noise := Req * opamp_input_current_noise in
  Req' <~ parallel_res feedback_res g_res ;;
  let resistors_voltage_noise := resistor_thermal_noise Req' in
  opamp_noise_gain <~ noise_gain feedback_res g_res ;;
  broadband_noise <~
    opamp_broadband_noise opamp_GBW opamp_noise_gain filter_order_default ;;
  if no_filter filter_res filter_cap then
    q <~ quadrature opamp_input_voltage_noise current_noise
           resistors_voltage_noise ;;
    let total_input_voltage_noise := q * np_sqrt broadband_noise in
    print (AtBandwidth broadband_noise) ~;;
    ret total_input_voltage_noise
  else
    d1 <~ mul (2 * pi) filter_res ;;
    d2 <~ mul d1 filter_cap ;;
    rc_freq <~ truediv 1 d2 ;;
    if broadband_noise <? rc_freq then
      q <~ quadrature opamp_input_voltage_noise current_noise
             resistors_voltage_noise ;;
      let total_input_voltage_noise := q * np_sqrt broadband_noise in
      print (AtBandwidth broadband_noise) ~;;
      ret total_input_voltage_noise
    else
      q <~ quadrature opamp_input_voltage_noise current_noise
             resistors_voltage_noise ;;
      let total_input_voltage_noise := q * np_sqrt (1.57 * rc_freq) in
      print (AtBandwidth rc_freq) ~;;
      ret total_input_voltage_noise.

Definition total_output_noise_rms (input_voltage_noise opamp_gain : float)
  : float :=
  let total_output_voltage_noise := input_voltage_noise * opamp_gain in
  total_output_voltage_noise.

Definition resistor_or_opamp_noise_dominant
  (feedback_res g_res opamp_input_voltage_noise : float) : M bool :=
  Req <~ parallel_res feedback_res g_res ;;
  let resistors_voltage_noise := resistor_thermal_noise Req in
  if opamp_input_voltage_noise <? 3 * resistors_voltage_noise then
    print (Text (nl ++ "Bad, resistor noise is dominant over opamp voltage noise.")) ~;;
    print (Text "Try to reduce feedback resistor values.") ~;;
    print (Text "Low noise opamp not necessary.") ~;;
    ret false
  else if 3 * resistors_voltage_noise <? opamp_input_voltage_noise then
    print (Text (nl ++ "Good, opamp voltage noise is dominant over resistor noise.")) ~;;
    print (Text "Ensure to use a low noise opamp.") ~;;
    ret true
  else
    print (Text (nl ++ "Neither opamp votlage noise nor resistor noise is dominant.")) ~;;
    ret false.

Definition current_noise_or_opamp_noise_dominant
  (feedback_res g_res opamp_input_current_noise opamp_input_voltage_noise
   : float) : M bool :=
  input_current_noise <~
    opamp_circuit_current_noise feedback_res g_res opamp_input_current_noise ;;
  if 3 * input_current_noise <? opamp_input_voltage_noise then
    print (Text (nl ++ "Opamp noise dominant over current noise.")) ~;;
    ret true
  else if opamp_input_voltage_noise <? 3 * input_current_noise then
    print (Text (nl ++ "Current noise dominant over voltage noise.")) ~;;
    print (Text "Try to reduce feedback resistor values.") ~;;
    print (Text "Try using a JFET/CMOS opamp.") ~;;
    ret false
  else
    print (Text (nl ++ "Neither current nor voltage noise is dominant.")) ~;;
    ret false.

Definition broadband_or_white_noise_dominant
  (feedback_res g_res opamp_GBW opamp_freq_corner : float) : M bool :=
  opamp_noise_gain <~ noise_gain feedback_res g_res ;;
  broadband_noise_freq <~
    opamp_broadband_noise opamp_GBW opamp_noise_gain filter_order_default ;;
  if 10 * opamp_freq_corner <? broadband_noise_freq then
    print (Text (nl ++ "Broadband noise is dominant over 1/f noise.")) ~;;
    print (BroadbandNoise broadband_noise_freq) ~;;
    ret true
  else if broadband_noise_freq <? 10 * opamp_freq_corner then
    print (Text (nl ++ "1/f noise is dominant over broadband noise.")) ~;;
    print (Text "Ensure to use low 0.1 Hz to 10 Hz noise opamp!") ~;;
    ret false
  else
    print (Text (nl ++ "Neither broadband nor 1/f noise dominant.")) ~;;
    ret false.

(** The body of [if __name__ == "__main__"] after argument parsing: every
    argument is a float ([type=float], with a default). *)
Definition main
  (opamp_input_voltage_noise opamp_input_current_noise opamp_GBW
   opamp_freq_corner res_feedback res_g filter_res filter_cap : float)
  : M unit :=
  opamp_gain <~ inverting_opamp_gain res_feedback res_g ;;
  total_input_noise <~
    total_input_noise_rms opamp_input_voltage_noise
      opamp_input_current_noise res_feedback res_g opamp_GBW
      (PyFloat filter_res) (PyFloat filter_cap) ;;
  let total_output_noise :=
    total_output_noise_rms total_input_noise opamp_gain in
  print (TotalOutputNoise total_output_noise) ~;;
  resistor_or_opamp_noise_dominant res_feedback res_g
    opamp_input_voltage_noise ~;;
  current_noise_or_opamp_noise_dominant res_feedback res_g
    opamp_input_current_noise opamp_input_voltage_noise ~;;
  broadband_or_white_noise_dominant res_feedback res_g opamp_GBW
    opamp_freq_corner ~;;
  ret tt.

(** *** Closed forms of the intermediate quantities, in binary64 *)

Definition Req_of (feedback_res g_res : float) : float :=
  feedback_res * g_res / (feedback_res + g_res).

Definition gain_of (feedback_res g_res : float) : float :=
  1 + feedback_res / g_res.

Definition broadband_of (feedback_res g_res opamp_GBW : float) : float :=
  filter_order_default * (opamp_GBW / gain_of feedback_res g_res).

Definition product_of (filter_res filter_cap : float) : float :=
  2 * pi * filter_res * filter_cap.

Definition rc_freq_of (filter_res filter_cap : float) : float :=
  1 / product_of filter_res filter_cap.

Definition density_of (v i feedback_res g_res : float) : float :=
  np_sqrt
    (v * v
     + Req_of feedback_res g_res * i * (Req_of feedback_res g_res * i)
     + np_square (resistor_thermal_noise (Req_of feedback_res g_res))).

(** One of the two Python squares of the quadrature overflows. *)
Definition squares_overflow (v i feedback_res g_res : float) : bool :=
  overflows v || overflows (Req_of feedback_res g_res * i).

(** The end of every branch: the quadrature times the root of the
    bandwidth [bw], after which the line naming [hz] is printed. *)
Definition integrate (v i feedback_res g_res bw hz : float) : M float :=
  if squares_overflow v i feedback_res g_res then raise OverflowError
  else (inr (density_of v i feedback_res g_res * np_sqrt bw),
        [AtBandwidth hz]).


(** The zero divisors of the resistor computations. *)
Definition resistors_ok (feedback_res g_res : float) : bool :=
  negb (feedback_res + g_res =? 0) && negb (g_res =? 0)
  && negb (gain_of feedback_res g_res =? 0).

End Engine64.

(** *** Signs of binary64 values *)

(** The outcome of a rounding carries the sign it was given. *)
Definition signed (s : bool) (x : spec_float) : Prop :=
  x = S754_zero s \/ (exists m e, x = S754_finite s m e) \/
  x = S754_infinity s \/ x = S754_nan.

Definition nonzero_signed (s : bool) (x : spec_float) : Prop :=
  (exists m e, x = S754_finite s m e) \/ x = S754_infinity s.

(** * The engine over the reals: control flow and exceptions *)

(** ** Basic facts about the two layers *)

Section Layers.

Lemma bind_ret_l {A B} (a : A) (f : A -> Py.M B) :
  Py.bind (Py.ret a) f = f a.
Proof.
  unfold Py.bind, Py.ret. destruct (f a) as [e | [b out]]; reflexivity.
Qed.

Lemma truediv_ok (x y : R) :
  y <> 0 -> Py.truediv x y = Py.ret (x / y).
Proof.
  intros Hy. unfold Py.truediv.
  destruct (Req_dec_T y 0) as [E | _]; [contradiction | reflexivity].
Qed.

Lemma truediv_zero (x y : R) :
  y = 0 -> Py.truediv x y = Py.raise Py.ZeroDivisionError.
Proof.
  intros Hy. unfold Py.truediv.
  destruct (Req_dec_T y 0) as [_ | N]; [reflexivity | contradiction].
Qed.

Lemma truth_float (r : R) : Py.truth (Py.PyFloat r) = true <-> r <> 0.
Proof.
  simpl. destruct (Req_dec_T r 0) as [E | N]; split; intros H;
    try discriminate; try reflexivity; try assumption.
  contradiction.
Qed.

Lemma np_sqrt_nonneg (a : R) :
  0 <= a -> Np.sqrt (Np.Fin a) = Np.Fin (sqrt a).
Proof.
  intros Ha. simpl. destruct (Rlt_dec a 0) as [L | _]; [lra | reflexivity].
Qed.

Lemma k_pos : 0 < k.
Proof. unfold k. lra. Qed.

Lemma temp_pos : 0 < temp.
Proof. unfold temp. lra. Qed.

Lemma four_k_temp_pos : 0 < 4 * k * temp.
Proof.
  pose proof k_pos. pose proof temp_pos.
  apply Rmult_lt_0_compat; [apply Rmult_lt_0_compat |]; lra.
Qed.

End Layers.

(** ** The helper functions on well-formed inputs *)

Section Helpers.

Lemma inverting_opamp_gain_ok (feedback_res g_res : R) :
  g_res <> 0 ->
  inverting_opamp_gain feedback_res g_res = Py.ret (feedback_res / g_res).
Proof.
  intros Hg. unfold inverting_opamp_gain.
  rewrite truediv_ok by assumption. rewrite bind_ret_l. reflexivity.
Qed.

Lemma parallel_res_ok (res_one res_two : R) :
  res_one + res_two <> 0 ->
  parallel_res res_one res_two =
    Py.ret (res_one * res_two / (res_one + res_two)).
Proof.
  intros Hs. unfold parallel_res.
  rewrite truediv_ok by assumption. rewrite bind_ret_l. reflexivity.
Qed.

Lemma noise_gain_ok (feedback_res res_g : R) :
  res_g <> 0 ->
  noise_gain feedback_res res_g = Py.ret (1 + feedback_res / res_g).
Proof.
  intros Hg. unfold noise_gain.
  rewrite truediv_ok by assumption. rewrite bind_ret_l. reflexivity.
Qed.

Lemma opamp_broadband_noise_ok (opamp_GBW ng filter_order : R) :
  ng <> 0 ->
  opamp_broadband_noise opamp_GBW ng filter_order =
    Py.ret (filter_order * (opamp_GBW / ng)).
Proof.
  intros Hg. unfold opamp_broadband_noise.
  rewrite truediv_ok by assumption. rewrite bind_ret_l. reflexivity.
Qed.

Lemma parallel_pos (r1 r2 : R) :
  0 < r1 -> 0 < r2 -> 0 < r1 * r2 / (r1 + r2).
Proof.
  intros H1 H2. apply Rdiv_lt_0_compat; [apply Rmult_lt_0_compat |]; lra.
Qed.

Lemma noise_gain_pos (feedback_res g_res : R) :
  0 < feedback_res -> 0 < g_res -> 1 < 1 + feedback_res / g_res.
Proof.
  intros Hf Hg.
  pose proof (Rdiv_lt_0_compat feedback_res g_res Hf Hg). lra.
Qed.

Lemma resistor_thermal_noise_nonneg (res : R) :
  0 <= res ->
  resistor_thermal_noise res = Np.Fin (sqrt (4 * k * temp * res)).
Proof.
  intros Hr. unfold resistor_thermal_noise.
  apply np_sqrt_nonneg.
  pose proof four_k_temp_pos. apply Rmult_le_pos; lra.
Qed.

Lemma quadrature_fin (v current_noise rn : R) :
  quadrature v current_noise (Np.Fin rn) =
    Np.Fin (sqrt (v ^ 2 + current_noise ^ 2 + rn ^ 2)).
Proof.
  unfold quadrature. simpl Np.square. simpl Np.add.
  apply np_sqrt_nonneg.
  pose proof (pow2_ge_0 v). pose proof (pow2_ge_0 current_noise).
  pose proof (pow2_ge_0 rn). lra.
Qed.

End Helpers.

(** ** [total_input_noise_rms] branch by branch *)

Section TotalInputNoise.

Variables v i feedback_res g_res opamp_GBW : R.
Hypothesis Hf : 0 < feedback_res.
Hypothesis Hg : 0 < g_res.

Let Hsum : feedback_res + g_res <> 0.
Proof. lra. Qed.

Let Hg0 : g_res <> 0.
Proof. lra. Qed.

Let Hng : 1 + feedback_res / g_res <> 0.
Proof. pose proof (noise_gain_pos _ _ Hf Hg). lra. Qed.

Let Hreq : 0 <= feedback_res * g_res / (feedback_res + g_res).
Proof. pose proof (parallel_pos _ _ Hf Hg). lra. Qed.

Ltac run_prefix :=
  unfold total_input_noise_rms;
  rewrite !parallel_res_ok by exact Hsum; rewrite !bind_ret_l;
  rewrite noise_gain_ok by exact Hg0; rewrite bind_ret_l;
  rewrite opamp_broadband_noise_ok by exact Hng; rewrite bind_ret_l;
  rewrite resistor_thermal_noise_nonneg by exact Hreq;
  rewrite quadrature_fin;
  fold (Req_of feedback_res g_res);
  fold (density_of v i feedback_res g_res);
  fold (broadband_of feedback_res g_res opamp_GBW).

(** No filter: both arguments falsy. *)
Lemma total_input_noise_rms_unfiltered (filter_res filter_cap : Py.obj) :
  no_filter filter_res filter_cap = true ->
  total_input_noise_rms v i feedback_res g_res opamp_GBW filter_res filter_cap =
    inr (Np.mul (density_of v i feedback_res g_res)
                (Np.sqrt (broadband_of feedback_res g_res opamp_GBW)),
         [Py.AtBandwidth (broadband_of feedback_res g_res opamp_GBW)]).
Proof.
  intros Hnf. run_prefix. rewrite Hnf. reflexivity.
Qed.

(** One truthy float next to [None]: the product raises. *)
Lemma total_input_noise_rms_half_filter (filter_res filter_cap : Py.obj) :
  (exists r, r <> 0 /\ filter_res = Py.PyFloat r /\ filter_cap = Py.PyNone) \/
  (exists c, c <> 0 /\ filter_res = Py.PyNone /\ filter_cap = Py.PyFloat c) ->
  total_input_noise_rms v i feedback_res g_res opamp_GBW filter_res filter_cap =
    Py.raise Py.TypeError.
Proof.
  intros [(r & Hr & -> & ->) | (c & Hc & -> & ->)]; run_prefix.
  - unfold no_filter, Py.or_.
    assert (Ht : Py.truth (Py.PyFloat r) = true) by (apply truth_float; exact Hr).
    rewrite Ht, Ht. cbn [negb Py.mul]. rewrite bind_ret_l. reflexivity.
  - unfold no_filter, Py.or_. cbn [Py.truth].
    assert (Ht : Py.truth (Py.PyFloat c) = true) by (apply truth_float; exact Hc).
    cbn [Py.truth] in Ht. rewrite Ht. reflexivity.
Qed.

End TotalInputNoise.

(** ** Gains and parallel resistance *)

(** C6: [inverting_opamp_gain feedback_res g_res] returns
    [feedback_res / g_res] when [g_res] is non-zero, and fails when
    [g_res = 0]: the division raises Python's [ZeroDivisionError], the
    exception by which this code reports a domain error. *)
Theorem inverting_opamp_gain_spec (feedback_res g_res : R) :
  (g_res <> 0 ->
   Py.returned (inverting_opamp_gain feedback_res g_res)
     = inr (feedback_res / g_res)) /\
  (g_res = 0 ->
   Py.returned (inverting_opamp_gain feedback_res g_res)
     = inl Py.ZeroDivisionError).
Proof.
  split; intros Hg.
  - rewrite inverting_opamp_gain_ok by exact Hg. reflexivity.
  - unfold inverting_opamp_gain. rewrite truediv_zero by exact Hg. reflexivity.
Qed.

Lemma inverting_opamp_gain_spec_witness :
  Py.returned (inverting_opamp_gain 100e3 1e3) = inr (100e3 / 1e3) /\
  Py.returned (inverting_opamp_gain 100e3 0) = inl Py.ZeroDivisionError.
Proof.
  split.
  - apply (proj1 (inverting_opamp_gain_spec 100e3 1e3)). lra.
  - apply (proj2 (inverting_opamp_gain_spec 100e3 0)). reflexivity.
Defined.

(** C8: for positive [Rf] and [Rg], both gains are returned and
    [noise_gain Rf Rg] is [inverting_opamp_gain Rf Rg + 1], that is
    [1 + Rf / Rg]. *)
Theorem noise_gain_is_inverting_gain_plus_one (Rf Rg : R) :
  0 < Rf -> 0 < Rg ->
  exists inv_gain gain_of_noise,
    Py.returned (inverting_opamp_gain Rf Rg) = inr inv_gain /\
    Py.returned (noise_gain Rf Rg) = inr gain_of_noise /\
    gain_of_noise = inv_gain + 1 /\
    gain_of_noise = 1 + Rf / Rg.
Proof.
  intros Hf Hg. exists (Rf / Rg), (1 + Rf / Rg).
  rewrite inverting_opamp_gain_ok, noise_gain_ok by lra.
  repeat split; try reflexivity. ring.
Qed.

Lemma noise_gain_is_inverting_gain_plus_one_witness :
  exists inv_gain gain_of_noise,
    Py.returned (inverting_opamp_gain 100e3 1e3) = inr inv_gain /\
    Py.returned (noise_gain 100e3 1e3) = inr gain_of_noise /\
    gain_of_noise = inv_gain + 1 /\
    gain_of_noise = 1 + 100e3 / 1e3.
Proof.
  apply (noise_gain_is_inverting_gain_plus_one 100e3 1e3); lra.
Defined.

(** ** Thermal noise *)

Section ThermalNoise.

(** The square root is increasing. *)
Lemma thermal_noise_le (r1 r2 : R) :
  r1 <= r2 ->
  sqrt (4 * k * temp * r1) <= sqrt (4 * k * temp * r2).
Proof.
  intros H12. pose proof four_k_temp_pos as Hc.
  apply sqrt_le_1_alt. apply Rmult_le_compat_l; lra.
Qed.

Lemma thermal_noise_1000_bounds :
  3.99e-9 < sqrt (4 * k * temp * 1000) < 4.0e-9.
Proof.
  unfold k, temp. split.
  - assert (H : sqrt (3.99e-9 ^ 2) < sqrt (4 * 1.38e-23 * 289 * 1000))
      by (apply sqrt_lt_1_alt; lra).
    rewrite sqrt_pow2 in H by lra. exact H.
  - assert (H : sqrt (4 * 1.38e-23 * 289 * 1000) < sqrt (4.0e-9 ^ 2))
      by (apply sqrt_lt_1_alt; lra).
    rewrite sqrt_pow2 in H by lra. exact H.
Qed.

End ThermalNoise.

(** C2, with the constant the code uses: for every positive [r],
    [resistor_thermal_noise r] is [sqrt (4 * k_B * T * r)] with
    [k_B = 1.38e-23] J/K and [T = 289] K, never negative; it is
    monotonically increasing in [r]: a larger resistance never gives a
    smaller value; and [resistor_thermal_noise 1000] lies within [0.01e-9]
    of [4.0e-9] V/sqrt(Hz). *)
Theorem resistor_thermal_noise_spec :
  (forall r, 0 < r ->
     resistor_thermal_noise r = Np.Fin (sqrt (4 * 1.38e-23 * 289 * r)) /\
     0 <= sqrt (4 * 1.38e-23 * 289 * r)) /\
  (forall r1 r2, 0 < r1 -> r1 <= r2 ->
     exists x1 x2,
       resistor_thermal_noise r1 = Np.Fin x1 /\
       resistor_thermal_noise r2 = Np.Fin x2 /\
       x1 <= x2) /\
  (exists x,
     resistor_thermal_noise 1000 = Np.Fin x /\
     Rabs (x - 4.0e-9) < 0.01e-9).
Proof.
  repeat split.
  - rewrite resistor_thermal_noise_nonneg by lra. reflexivity.
  - apply sqrt_pos.
  - intros r1 r2 H1 H12.
    exists (sqrt (4 * k * temp * r1)), (sqrt (4 * k * temp * r2)).
    rewrite !resistor_thermal_noise_nonneg by lra.
    repeat split. apply thermal_noise_le; lra.
  - exists (sqrt (4 * k * temp * 1000)).
    rewrite resistor_thermal_noise_nonneg by lra.
    split; [reflexivity |].
    pose proof thermal_noise_1000_bounds as [Hlo Hhi].
    apply Rabs_def1; lra.
Qed.

(** C2 as stated fails on the constant: the code's Boltzmann constant is
    [1.38e-23], so the value at 1000 ohms is not
    [sqrt (4 * 1.380649e-23 * 289 * 1000)]. *)
Lemma resistor_thermal_noise_boltzmann_rounded :
  resistor_thermal_noise 1000 <> Np.Fin (sqrt (4 * 1.380649e-23 * 289 * 1000)).
Proof.
  rewrite resistor_thermal_noise_nonneg by lra.
  intros E. injection E as E.
  apply sqrt_inj in E; unfold k, temp in *; lra.
Qed.

(** ** The filter arguments: truthiness, [None] and invalid values *)

Section FilterArguments.

Lemma truth_false_iff (o : Py.obj) :
  Py.truth o = false <-> o = Py.PyNone \/ o = Py.PyFloat 0.
Proof.
  destruct o as [| r]; simpl.
  - split; intros; [left |]; reflexivity.
  - destruct (Req_dec_T r 0) as [E | N]; split; intros H.
    + right. rewrite E. reflexivity.
    + reflexivity.
    + discriminate.
    + destruct H as [H | H]; [discriminate |].
      injection H as H. contradiction.
Qed.

Lemma no_filter_iff (filter_res filter_cap : Py.obj) :
  no_filter filter_res filter_cap = true <->
  Py.truth filter_res = false /\ Py.truth filter_cap = false.
Proof.
  unfold no_filter, Py.or_.
  destruct (Py.truth filter_res) eqn:Er.
  - rewrite Er. simpl. split; [discriminate | intros [H _]; discriminate].
  - destruct (Py.truth filter_cap); simpl; split; intros H;
      try discriminate; try (split; reflexivity); try reflexivity.
    destruct H; discriminate.
Qed.

End FilterArguments.

(** C10: the no-filter branch is taken exactly when both filter arguments
    are falsy ([None] or zero).  One truthy float next to [None] does not
    fall back to the no-filter computation: the call enters the filter
    branch and the product for the RC corner raises [TypeError], so no noise
    value is returned. *)
Theorem total_input_noise_rms_half_specified_filter
  (v i feedback_res g_res gbw : R) :
  0 < feedback_res -> 0 < g_res ->
  (forall filter_res filter_cap,
     no_filter filter_res filter_cap = true <->
     (filter_res = Py.PyNone \/ filter_res = Py.PyFloat 0) /\
     (filter_cap = Py.PyNone \/ filter_cap = Py.PyFloat 0)) /\
  (forall filter_res filter_cap,
     no_filter filter_res filter_cap = true ->
     total_input_noise_rms v i feedback_res g_res gbw filter_res filter_cap
     = total_input_noise_rms v i feedback_res g_res gbw Py.PyNone Py.PyNone) /\
  (forall x, x <> 0 ->
     no_filter (Py.PyFloat x) Py.PyNone = false /\
     Py.returned (total_input_noise_rms v i feedback_res g_res gbw
                    (Py.PyFloat x) Py.PyNone) = inl Py.TypeError /\
     no_filter Py.PyNone (Py.PyFloat x) = false /\
     Py.returned (total_input_noise_rms v i feedback_res g_res gbw
                    Py.PyNone (Py.PyFloat x)) = inl Py.TypeError).
Proof.
  intros Hf Hg. split; [| split].
  - intros filter_res filter_cap.
    rewrite no_filter_iff, !truth_false_iff. reflexivity.
  - intros filter_res filter_cap Hnf.
    rewrite !total_input_noise_rms_unfiltered;
      try assumption; reflexivity.
  - intros x Hx.
    assert (Ht : Py.truth (Py.PyFloat x) = true) by (apply truth_float; exact Hx).
    repeat split.
    + unfold no_filter, Py.or_. rewrite Ht, Ht. reflexivity.
    + rewrite total_input_noise_rms_half_filter;
        try assumption; try reflexivity.
      left. exists x. repeat split; assumption.
    + unfold no_filter, Py.or_. cbn [Py.truth] in *. rewrite Ht. reflexivity.
    + rewrite total_input_noise_rms_half_filter;
        try assumption; try reflexivity.
      right. exists x. repeat split; assumption.
Qed.

Lemma total_input_noise_rms_half_specified_filter_witness :
  Py.returned (total_input_noise_rms 1.0e-9 21.7e-12 100e3 1e3 80e6
                 (Py.PyFloat 5e3) Py.PyNone) = inl Py.TypeError /\
  Py.returned (total_input_noise_rms 1.0e-9 21.7e-12 100e3 1e3 80e6
                 Py.PyNone (Py.PyFloat 4.7e-9)) = inl Py.TypeError.
Proof.
  destruct (total_input_noise_rms_half_specified_filter
              1.0e-9 21.7e-12 100e3 1e3 80e6) as (_ & _ & H); try lra.
  split.
  - apply (H 5e3). lra.
  - apply (H 4.7e-9). lra.
Defined.

(** ** Further properties of the helper functions *)

(** X1: the equivalent resistance does not depend on the order of the two
    resistors, value and exception alike. *)
Theorem parallel_res_comm (res_one res_two : R) :
  parallel_res res_one res_two = parallel_res res_two res_one.
Proof.
  unfold parallel_res.
  rewrite (Rmult_comm res_one res_two), (Rplus_comm res_one res_two).
  reflexivity.
Qed.


(** ** [total_input_noise_rms] on arbitrary arguments *)

Section AnyArguments.

Variables v i feedback_res g_res opamp_GBW : R.

Lemma noise_gain_nonzero :
  g_res <> 0 -> feedback_res + g_res <> 0 -> 1 + feedback_res / g_res <> 0.
Proof.
  intros Hg Hs H. apply Hs.
  replace (feedback_res + g_res) with (g_res * (1 + feedback_res / g_res))
    by (field; exact Hg).
  rewrite H. ring.
Qed.

(** A failing resistor pair fails the call before the filter is looked at. *)
Lemma total_input_noise_rms_resistor_error (filter_res filter_cap : Py.obj) :
  g_res = 0 \/ feedback_res + g_res = 0 ->
  total_input_noise_rms v i feedback_res g_res opamp_GBW filter_res filter_cap
  = Py.raise Py.ZeroDivisionError.
Proof.
  intros H. unfold total_input_noise_rms.
  destruct (Req_dec_T (feedback_res + g_res) 0) as [Es | Ns].
  - unfold parallel_res. rewrite truediv_zero by exact Es. reflexivity.
  - destruct H as [Eg | Es]; [| contradiction].
    rewrite !parallel_res_ok by exact Ns. rewrite !bind_ret_l.
    unfold noise_gain. rewrite truediv_zero by exact Eg. reflexivity.
Qed.

Hypothesis Hg : g_res <> 0.
Hypothesis Hs : feedback_res + g_res <> 0.

(** The density as the code computes it, nan included. *)
Let Q : Np.float64 :=
  quadrature v (Req_of feedback_res g_res * i)
    (resistor_thermal_noise (Req_of feedback_res g_res)).

Let B : R := broadband_of feedback_res g_res opamp_GBW.

Ltac run_resistors :=
  unfold total_input_noise_rms;
  rewrite !parallel_res_ok by exact Hs; rewrite !bind_ret_l;
  rewrite noise_gain_ok by exact Hg; rewrite bind_ret_l;
  rewrite opamp_broadband_noise_ok by (apply noise_gain_nonzero; assumption);
  rewrite bind_ret_l;
  fold (Req_of feedback_res g_res);
  fold (broadband_of feedback_res g_res opamp_GBW);
  fold Q; fold B.

Lemma total_input_noise_rms_any_unfiltered (filter_res filter_cap : Py.obj) :
  no_filter filter_res filter_cap = true ->
  total_input_noise_rms v i feedback_res g_res opamp_GBW filter_res filter_cap
  = inr (Np.mul Q (Np.sqrt B), [Py.AtBandwidth B]).
Proof.
  intros Hnf. run_resistors. rewrite Hnf. reflexivity.
Qed.

Lemma total_input_noise_rms_any_filtered (r c : R) :
  r <> 0 -> c <> 0 ->
  total_input_noise_rms v i feedback_res g_res opamp_GBW
    (Py.PyFloat r) (Py.PyFloat c)
  = if Rgt_dec (rc_freq_of r c) B
    then inr (Np.mul Q (Np.sqrt B), [Py.AtBandwidth B])
    else inr (Np.mul Q (Np.sqrt (1.57 * rc_freq_of r c)),
              [Py.AtBandwidth (rc_freq_of r c)]).
Proof.
  intros Hr Hc. run_resistors.
  unfold no_filter, Py.or_.
  assert (Ht : Py.truth (Py.PyFloat r) = true) by (apply truth_float; exact Hr).
  rewrite Ht, Ht. cbn [negb Py.mul]. rewrite !bind_ret_l.
  assert (Hd : 2 * Np.pi * r * c <> 0).
  { unfold Np.pi. pose proof PI_RGT_0.
    apply Rmult_integral_contrapositive_currified; [| exact Hc].
    apply Rmult_integral_contrapositive_currified; [lra | exact Hr]. }
  rewrite truediv_ok by exact Hd. rewrite bind_ret_l.
  unfold Np.pi. fold (rc_freq_of r c).
  destruct (Rgt_dec _ _); reflexivity.
Qed.

Lemma total_input_noise_rms_any_zero_product (r c : R) :
  no_filter (Py.PyFloat r) (Py.PyFloat c) = false ->
  r = 0 \/ c = 0 ->
  total_input_noise_rms v i feedback_res g_res opamp_GBW
    (Py.PyFloat r) (Py.PyFloat c)
  = Py.raise Py.ZeroDivisionError.
Proof.
  intros Hnf Hz. run_resistors. rewrite Hnf.
  cbn [Py.mul]. rewrite !bind_ret_l.
  rewrite truediv_zero; [reflexivity |].
  destruct Hz as [-> | ->]; ring.
Qed.

Lemma total_input_noise_rms_any_none (filter_res filter_cap : Py.obj) :
  no_filter filter_res filter_cap = false ->
  filter_res = Py.PyNone \/ filter_cap = Py.PyNone ->
  total_input_noise_rms v i feedback_res g_res opamp_GBW filter_res filter_cap
  = Py.raise Py.TypeError.
Proof.
  intros Hnf Hn. run_resistors. rewrite Hnf.
  destruct filter_res as [| r]; [reflexivity |].
  destruct Hn as [Hn | ->]; [discriminate |].
  cbn [Py.mul]. rewrite bind_ret_l. reflexivity.
Qed.

End AnyArguments.

Section Returns.

Variables v i feedback_res g_res opamp_GBW : R.
Variables filter_res filter_cap : Py.obj.

(** What a returning call tells about its arguments. *)
Lemma total_input_noise_rms_returns_inv (x : Np.float64) :
  Py.returned (total_input_noise_rms v i feedback_res g_res opamp_GBW
                 filter_res filter_cap) = inr x ->
  g_res <> 0 /\ feedback_res + g_res <> 0 /\
  (no_filter filter_res filter_cap = true \/
   exists r c, filter_res = Py.PyFloat r /\ filter_cap = Py.PyFloat c /\
               r <> 0 /\ c <> 0).
Proof.
  intros Hx.
  destruct (Req_dec_T g_res 0) as [Eg | Ng].
  { rewrite total_input_noise_rms_resistor_error in Hx by (left; exact Eg).
    discriminate. }
  destruct (Req_dec_T (feedback_res + g_res) 0) as [Es | Ns].
  { rewrite total_input_noise_rms_resistor_error in Hx by (right; exact Es).
    discriminate. }
  split; [exact Ng |]. split; [exact Ns |].
  destruct (no_filter filter_res filter_cap) eqn:Hnf; [left; reflexivity |].
  right.
  destruct filter_res as [| r].
  { rewrite total_input_noise_rms_any_none in Hx
      by (assumption || (left; reflexivity)).
    discriminate. }
  destruct filter_cap as [| c].
  { rewrite total_input_noise_rms_any_none in Hx
      by (assumption || (right; reflexivity)).
    discriminate. }
  exists r, c.
  destruct (Req_dec_T r 0) as [Er | Nr].
  { rewrite total_input_noise_rms_any_zero_product in Hx
      by (assumption || (left; exact Er)).
    discriminate. }
  destruct (Req_dec_T c 0) as [Ec | Nc].
  { rewrite total_input_noise_rms_any_zero_product in Hx
      by (assumption || (right; exact Ec)).
    discriminate. }
  repeat split; assumption.
Qed.

(** A call on such arguments returns, having printed one bandwidth. *)
Lemma total_input_noise_rms_runs :
  g_res <> 0 -> feedback_res + g_res <> 0 ->
  (no_filter filter_res filter_cap = true \/
   exists r c, filter_res = Py.PyFloat r /\ filter_cap = Py.PyFloat c /\
               r <> 0 /\ c <> 0) ->
  exists x hz,
    total_input_noise_rms v i feedback_res g_res opamp_GBW
      filter_res filter_cap = inr (x, [Py.AtBandwidth hz]).
Proof.
  intros Ng Ns [Hnf | (r & c & -> & -> & Nr & Nc)].
  - rewrite total_input_noise_rms_any_unfiltered by assumption.
    eexists. eexists. reflexivity.
  - rewrite total_input_noise_rms_any_filtered by assumption.
    destruct (Rgt_dec _ _); eexists; eexists; reflexivity.
Qed.

End Returns.

(** X7: a zero ground resistor, or two resistors that sum to zero, fail
    the call with [ZeroDivisionError] whatever the filter arguments are,
    also those that would raise [TypeError] on their own. *)
Theorem total_input_noise_rms_resistors_fail_first
  (v i feedback_res g_res opamp_GBW : R) (filter_res filter_cap : Py.obj) :
  g_res = 0 \/ feedback_res + g_res = 0 ->
  Py.returned (total_input_noise_rms v i feedback_res g_res opamp_GBW
                 filter_res filter_cap) = inl Py.ZeroDivisionError.
Proof.
  intros H.
  rewrite total_input_noise_rms_resistor_error by exact H. reflexivity.
Qed.

Lemma total_input_noise_rms_resistors_fail_first_witness :
  Py.returned (total_input_noise_rms 1.0e-9 21.7e-12 100e3 0 80e6
                 (Py.PyFloat 5e3) Py.PyNone) = inl Py.ZeroDivisionError.
Proof.
  apply (total_input_noise_rms_resistors_fail_first
           1.0e-9 21.7e-12 100e3 0 80e6).
  left. reflexivity.
Defined.

(** X19: every call of [total_input_noise_rms] that returns has printed
    exactly one line, a bandwidth line, whatever the arguments. *)
Theorem total_input_noise_rms_prints_one_line
  (v i feedback_res g_res opamp_GBW : R) (filter_res filter_cap : Py.obj)
  (x : Np.float64) :
  Py.returned (total_input_noise_rms v i feedback_res g_res opamp_GBW
                 filter_res filter_cap) = inr x ->
  exists hz,
    Py.stdout (total_input_noise_rms v i feedback_res g_res opamp_GBW
                 filter_res filter_cap) = [Py.AtBandwidth hz].
Proof.
  intros Hx.
  destruct (total_input_noise_rms_returns_inv _ _ _ _ _ _ _ _ Hx)
    as (Ng & Ns & Hfilter).
  destruct (total_input_noise_rms_runs v i _ _ opamp_GBW _ _ Ng Ns Hfilter)
    as (y & hz & Hrun).
  exists hz. rewrite Hrun. reflexivity.
Qed.

Lemma total_input_noise_rms_prints_one_line_witness :
  exists hz,
    Py.stdout (total_input_noise_rms 1.0e-9 21.7e-12 100e3 1e3 80e6
                 (Py.PyFloat 0) (Py.PyFloat 0)) = [Py.AtBandwidth hz].
Proof.
  assert (Hx : Py.returned
                 (total_input_noise_rms 1.0e-9 21.7e-12 100e3 1e3 80e6
                    (Py.PyFloat 0) (Py.PyFloat 0))
               = inr (Np.mul (density_of 1.0e-9 21.7e-12 100e3 1e3)
                             (Np.sqrt (broadband_of 100e3 1e3 80e6)))).
  { rewrite total_input_noise_rms_unfiltered; [reflexivity | lra | lra |].
    apply no_filter_iff. split; apply truth_false_iff; right; reflexivity. }
  exact (total_input_noise_rms_prints_one_line _ _ _ _ _ _ _ _ Hx).
Defined.

(** * The engine on binary64 floats: values, comparisons and overflow *)

(** ** Facts about binary64 arithmetic, read off its specification *)

Section Binary64.

Local Open Scope Z_scope.

Lemma digits2_pos_lower (m : positive) :
  2 ^ (Zpos (digits2_pos m) - 1) <= Zpos m.
Proof.
  induction m as [m IH | m IH |]; cbn [digits2_pos].
  - rewrite Pos2Z.inj_succ.
    replace (Z.succ (Zpos (digits2_pos m)) - 1)
      with (Z.succ (Zpos (digits2_pos m) - 1)) by lia.
    rewrite Z.pow_succ_r by lia. lia.
  - rewrite Pos2Z.inj_succ.
    replace (Z.succ (Zpos (digits2_pos m)) - 1)
      with (Z.succ (Zpos (digits2_pos m) - 1)) by lia.
    rewrite Z.pow_succ_r by lia. lia.
  - cbn. lia.
Qed.

Lemma shr_1_m (r : shr_record) :
  0 <= shr_m r -> shr_m (shr_1 r) = Z.shiftr (shr_m r) 1.
Proof.
  destruct r as [m b s]. cbn [shr_m]. intros Hm.
  destruct m as [| p | p]; [reflexivity | | lia].
  destruct p; reflexivity.
Qed.

Lemma iter_shr_1_m (p : positive) :
  forall r, 0 <= shr_m r ->
    shr_m (@SpecFloat.iter_pos _ shr_1 p r) = Z.shiftr (shr_m r) (Zpos p).
Proof.
  induction p as [p IH | p IH |]; intros r Hr; cbn [SpecFloat.iter_pos].
  - assert (H1 : 0 <= shr_m (shr_1 r))
      by (rewrite shr_1_m by exact Hr; apply Z.shiftr_nonneg; exact Hr).
    assert (H2 : 0 <= shr_m (@SpecFloat.iter_pos _ shr_1 p (shr_1 r)))
      by (rewrite IH by exact H1; apply Z.shiftr_nonneg; exact H1).
    rewrite IH by exact H2. rewrite IH by exact H1.
    rewrite shr_1_m by exact Hr.
    rewrite !Z.shiftr_shiftr by lia. f_equal. lia.
  - assert (H1 : 0 <= shr_m (@SpecFloat.iter_pos _ shr_1 p r))
      by (rewrite IH by exact Hr; apply Z.shiftr_nonneg; exact Hr).
    rewrite IH by exact H1. rewrite IH by exact Hr.
    rewrite Z.shiftr_shiftr by lia. f_equal. lia.
  - apply shr_1_m. exact Hr.
Qed.

Lemma shr_m_of_loc (m : Z) (l : location) :
  shr_m (shr_record_of_loc m l) = m.
Proof. destruct l as [| []]; reflexivity. Qed.

(** Above the smallest exponent, rounding to the format keeps a positive
    mantissa positive. *)
Lemma shr_fexp_pos (m : positive) (e : Z) (l : location) :
  emin <= e ->
  0 < shr_m (fst (shr_fexp prec emax (Zpos m) e l)) /\
  emin <= snd (shr_fexp prec emax (Zpos m) e l).
Proof.
  intros He. unfold shr_fexp, shr.
  set (n := fexp prec emax (Zdigits2 (Zpos m) + e) - e).
  assert (Hn : n <= Zpos (digits2_pos m) - 1).
  { unfold n, fexp, SpecFloat.emin, prec, emax in *. cbn [Zdigits2].
    pose proof (Pos2Z.is_pos (digits2_pos m)). lia. }
  destruct n as [| p | p] eqn:En; cbn [fst snd];
    rewrite ?shr_m_of_loc; try (split; lia).
  split; [| lia].
  rewrite iter_shr_1_m by (rewrite shr_m_of_loc; lia).
  rewrite shr_m_of_loc, Z.shiftr_div_pow2 by lia.
  apply Z.div_str_pos. split; [apply Z.pow_pos_nonneg; lia |].
  apply Z.le_trans with (2 ^ (Zpos (digits2_pos m) - 1)).
  - apply Z.pow_le_mono_r; lia.
  - apply digits2_pos_lower.
Qed.

Lemma round_nearest_even_pos (m : Z) (l : location) :
  0 < m -> 0 < round_nearest_even m l.
Proof.
  intros Hm. destruct l as [| []]; cbn [round_nearest_even]; try lia.
  destruct (Z.even m); lia.
Qed.

Lemma binary_round_aux_signed (s : bool) (m e : Z) (l : location) :
  signed s (binary_round_aux prec emax s m e l).
Proof.
  unfold binary_round_aux, signed.
  destruct (shr_fexp prec emax m e l) as [mrs' e'].
  destruct (shr_fexp prec emax _ e' loc_Exact) as [mrs'' e''].
  destruct (shr_m mrs'') as [| p | p]; auto.
  destruct (e'' <=? emax - prec); eauto.
Qed.

Lemma binary_round_aux_nonzero (s : bool) (m : positive) (e : Z) (l : location) :
  emin <= e ->
  nonzero_signed s (binary_round_aux prec emax s (Zpos m) e l).
Proof.
  intros He. unfold binary_round_aux, nonzero_signed.
  destruct (shr_fexp_pos m e l He) as [H1 H1e].
  destruct (shr_fexp prec emax (Zpos m) e l) as [mrs' e']. cbn [fst snd] in *.
  pose proof (round_nearest_even_pos _ (loc_of_shr_record mrs') H1) as H2.
  destruct (round_nearest_even (shr_m mrs') (loc_of_shr_record mrs'))
    as [| q | q]; try lia.
  destruct (shr_fexp_pos q e' loc_Exact H1e) as [H3 _].
  destruct (shr_fexp prec emax (Zpos q) e' loc_Exact) as [mrs'' e''].
  cbn [fst snd] in *.
  destruct (shr_m mrs'') as [| p | p]; try lia.
  destruct (e'' <=? emax - prec); eauto.
Qed.

Lemma binary_round_nonzero (s : bool) (m : positive) (e : Z) :
  emin <= e -> nonzero_signed s (binary_round prec emax s m e).
Proof.
  intros He. unfold binary_round, shl_align.
  set (e' := fexp prec emax (Zpos (digits2_pos m) + e)).
  assert (He' : emin <= e')
    by (unfold e', fexp, SpecFloat.emin, prec, emax; lia).
  destruct (e' - e) as [| d | d];
    apply binary_round_aux_nonzero; assumption.
Qed.

Lemma valid_finite_exponent (s : bool) (m : positive) (e : Z) :
  valid_binary (S754_finite s m e) = true -> emin <= e.
Proof.
  cbn [SpecFloat.valid_binary]. unfold bounded, canonical_mantissa.
  intros H. apply andb_prop in H. destruct H as [H _].
  apply Z.eqb_eq in H.
  unfold fexp, SpecFloat.emin, prec, emax in *. lia.
Qed.

(** The sum of two positive numbers (finite or infinite) is positive. *)
Lemma SFadd_positive (x y : spec_float) :
  valid_binary x = true -> valid_binary y = true ->
  nonzero_signed false x -> nonzero_signed false y ->
  nonzero_signed false (SF64add x y).
Proof.
  intros Vx Vy [(mx & ex & ->) | ->] [(my & ey & ->) | ->];
    try (right; reflexivity).
  unfold SF64add, SFadd.
  pose proof (valid_finite_exponent _ _ _ Vx).
  pose proof (valid_finite_exponent _ _ _ Vy).
  cbn [cond_Zopp Z.add binary_normalize].
  apply binary_round_nonzero. lia.
Qed.

End Binary64.

Section Float64.

Local Open Scope float_scope.

Lemma SFcompare_antisym (x y : spec_float) :
  SFcompare y x = option_map CompOpp (SFcompare x y).
Proof.
  destruct x as [sx | sx | | sx mx ex], y as [sy | sy | | sy my ey];
    cbn; try reflexivity;
    try (destruct sx; reflexivity); try (destruct sy; reflexivity);
    try (destruct sx, sy; reflexivity).
  f_equal. rewrite (Z.compare_antisym ex ey).
  destruct sx, sy; try reflexivity;
    destruct (ex ?= ey)%Z; cbn; try reflexivity.
  - rewrite CompOpp_involutive.
    rewrite (Pos.compare_cont_antisym my mx Eq). reflexivity.
  - rewrite (Pos.compare_cont_antisym mx my Eq). reflexivity.
Qed.

Lemma SFcompare_refl (x : spec_float) :
  x <> S754_nan -> SFcompare x x = Some Eq.
Proof.
  destruct x as [s | s | | s m e]; intros H; cbn;
    try (destruct s; reflexivity); try contradiction.
  rewrite Z.compare_refl. destruct s; cbn;
    rewrite Pos.compare_cont_refl; reflexivity.
Qed.

Lemma SFcompare_none (x y : spec_float) :
  SFcompare x y = None -> x = S754_nan \/ y = S754_nan.
Proof.
  destruct x as [sx | sx | | sx mx ex], y as [sy | sy | | sy my ey];
    cbn; intros H; auto; discriminate.
Qed.

Lemma is_nan_spec (x : float) :
  is_nan x = true <-> Prim2SF x = S754_nan.
Proof.
  unfold is_nan. rewrite FloatAxioms.eqb_spec. unfold SFeqb. split.
  - intros H. pose proof (SFcompare_refl (Prim2SF x)) as Hr.
    destruct (Prim2SF x) as [s | s | | s m e];
      try reflexivity; exfalso;
      rewrite Hr in H by discriminate; discriminate.
  - intros ->. reflexivity.
Qed.

Lemma Prim2SF_zero : Prim2SF 0 = S754_zero false.
Proof. reflexivity. Qed.

Lemma positive_spec (x : float) :
  (0 <? x) = true <-> nonzero_signed false (Prim2SF x).
Proof.
  rewrite FloatAxioms.ltb_spec, Prim2SF_zero. unfold SFltb, nonzero_signed.
  destruct (Prim2SF x) as [s | s | | s m e]; cbn; split; intros H.
  all: try discriminate.
  all: try (destruct H as [(m' & e' & H) | H]; discriminate).
  - destruct s; [discriminate | right; reflexivity].
  - destruct H as [(m' & e' & H) | H]; [discriminate |].
    injection H as ->. reflexivity.
  - destruct s; [discriminate | left; eauto].
  - destruct H as [(m' & e' & H) | H]; [| discriminate].
    injection H as -> _ _. reflexivity.
Qed.

Lemma negative_spec (x : float) :
  (x <? 0) = true <-> nonzero_signed true (Prim2SF x).
Proof.
  rewrite FloatAxioms.ltb_spec, Prim2SF_zero. unfold SFltb, nonzero_signed.
  destruct (Prim2SF x) as [s | s | | s m e]; cbn; split; intros H.
  all: try discriminate.
  all: try (destruct H as [(m' & e' & H) | H]; discriminate).
  - destruct s; [right; reflexivity | discriminate].
  - destruct H as [(m' & e' & H) | H]; [discriminate |].
    injection H as ->. reflexivity.
  - destruct s; [left; eauto | discriminate].
  - destruct H as [(m' & e' & H) | H]; [| discriminate].
    injection H as -> _ _. reflexivity.
Qed.

Lemma nonzero_signed_eqb_zero (s : bool) (x : float) :
  nonzero_signed s (Prim2SF x) -> (x =? 0) = false.
Proof.
  rewrite FloatAxioms.eqb_spec, Prim2SF_zero. unfold SFeqb.
  intros [(m & e & ->) | ->]; cbn; destruct s; reflexivity.
Qed.

(** A positive float is not zero. *)
Lemma positive_nonzero (x : float) :
  (0 <? x) = true -> (x =? 0) = false.
Proof.
  intros H. apply (nonzero_signed_eqb_zero false). apply positive_spec. exact H.
Qed.

(** The sum of two positive floats is positive: addition does not
    underflow. *)
Lemma add_positive (a b : float) :
  (0 <? a) = true -> (0 <? b) = true -> (0 <? a + b) = true.
Proof.
  intros Ha Hb. apply positive_spec. rewrite FloatAxioms.add_spec.
  apply SFadd_positive; try apply Prim2SF_valid; apply positive_spec;
    assumption.
Qed.

(** The quotient of two positive floats is zero, positive or nan. *)
Lemma div_positive_signed (a b : float) :
  (0 <? a) = true -> (0 <? b) = true -> signed false (Prim2SF (a / b)).
Proof.
  intros Ha Hb. apply positive_spec in Ha, Hb. rewrite FloatAxioms.div_spec.
  destruct Ha as [(ma & ea & ->) | ->], Hb as [(mb & eb & ->) | ->];
    unfold SF64div, SFdiv, signed; auto.
  destruct (SFdiv_core_binary prec emax (Zpos ma) ea (Zpos mb) eb)
    as [[mz ez] lz].
  apply binary_round_aux_signed.
Qed.

Lemma Prim2SF_one : nonzero_signed false (Prim2SF 1).
Proof. left. eexists. eexists. reflexivity. Qed.

(** For positive resistors the noise gain [1 + Rf / Rg] is not zero. *)
Lemma one_plus_quotient_nonzero (a b : float) :
  (0 <? a) = true -> (0 <? b) = true -> (1 + a / b =? 0) = false.
Proof.
  intros Ha Hb.
  destruct (div_positive_signed a b Ha Hb)
    as [Hq | [(m & e & Hq) | [Hq | Hq]]].
  - apply (nonzero_signed_eqb_zero false). rewrite FloatAxioms.add_spec, Hq.
    left. eexists. eexists. reflexivity.
  - apply (nonzero_signed_eqb_zero false). rewrite FloatAxioms.add_spec.
    apply SFadd_positive; try apply Prim2SF_valid.
    + exact Prim2SF_one.
    + rewrite Hq. left. eauto.
  - apply (nonzero_signed_eqb_zero false). rewrite FloatAxioms.add_spec.
    apply SFadd_positive; try apply Prim2SF_valid.
    + exact Prim2SF_one.
    + rewrite Hq. right. reflexivity.
  - rewrite FloatAxioms.eqb_spec, FloatAxioms.add_spec, Hq.
    destruct (Prim2SF 1); reflexivity.
Qed.

Lemma ltb_antisym (a b : float) :
  (a <? b) = true -> (b <? a) = false.
Proof.
  rewrite !FloatAxioms.ltb_spec. unfold SFltb.
  rewrite (SFcompare_antisym (Prim2SF a) (Prim2SF b)).
  destruct (SFcompare (Prim2SF a) (Prim2SF b)) as [[] |];
    cbn; intros H; try discriminate; reflexivity.
Qed.

Lemma eqb_not_ltb (a b : float) :
  (a =? b) = true -> (a <? b) = false /\ (b <? a) = false.
Proof.
  rewrite FloatAxioms.eqb_spec, !FloatAxioms.ltb_spec. unfold SFeqb, SFltb.
  rewrite (SFcompare_antisym (Prim2SF a) (Prim2SF b)).
  destruct (SFcompare (Prim2SF a) (Prim2SF b)) as [[] |];
    cbn; intros H; try discriminate; split; reflexivity.
Qed.

(** Two floats that are not ordered either way are equal, or one is nan. *)
Lemma not_ltb_tie (a b : float) :
  (a <? b) = false -> (b <? a) = false ->
  (a =? b) = true \/ is_nan a = true \/ is_nan b = true.
Proof.
  rewrite FloatAxioms.eqb_spec, !FloatAxioms.ltb_spec, !is_nan_spec. unfold SFeqb, SFltb.
  rewrite (SFcompare_antisym (Prim2SF a) (Prim2SF b)).
  destruct (SFcompare (Prim2SF a) (Prim2SF b)) as [[] |] eqn:E;
    cbn; intros H1 H2; try discriminate; auto.
  right. apply SFcompare_none. exact E.
Qed.

Lemma ltb_nan_l (x y : float) : is_nan x = true -> (x <? y) = false.
Proof.
  rewrite is_nan_spec, FloatAxioms.ltb_spec. intros ->. reflexivity.
Qed.

Lemma ltb_nan_r (x y : float) : is_nan y = true -> (x <? y) = false.
Proof.
  rewrite is_nan_spec, FloatAxioms.ltb_spec. intros ->.
  unfold SFltb. destruct (Prim2SF x); reflexivity.
Qed.

Lemma tie_not_ltb (a b : float) :
  (a =? b) = true \/ is_nan a = true \/ is_nan b = true ->
  (a <? b) = false /\ (b <? a) = false.
Proof.
  intros [H | [H | H]].
  - apply eqb_not_ltb. exact H.
  - split; [apply ltb_nan_l | apply ltb_nan_r]; exact H.
  - split; [apply ltb_nan_r | apply ltb_nan_l]; exact H.
Qed.

(** [np.sqrt] of a negative float is nan. *)
Lemma sqrt_negative_nan (x : float) :
  (x <? 0) = true -> is_nan (PrimFloat.sqrt x) = true.
Proof.
  intros H. apply negative_spec in H. apply is_nan_spec.
  rewrite FloatAxioms.sqrt_spec.
  destruct H as [(m & e & ->) | ->]; reflexivity.
Qed.

Lemma mul_nan_r (a x : float) :
  is_nan x = true -> is_nan (a * x) = true.
Proof.
  rewrite !is_nan_spec, FloatAxioms.mul_spec. intros ->.
  destruct (Prim2SF a); reflexivity.
Qed.

End Float64.

(** ** The binary64 engine, function by function *)

Section Engine64Runs.

Import Py64 Engine64.
Local Open Scope float_scope.

Lemma bind64_ret_l {A B} (a : A) (f : A -> M B) : bind (ret a) f = f a.
Proof.
  unfold bind, ret. destruct (f a) as [r out]. reflexivity.
Qed.

Lemma truediv64_ok (x y : float) :
  (y =? 0) = false -> truediv x y = ret (x / y).
Proof. intros H. unfold truediv. rewrite H. reflexivity. Qed.

Lemma truediv64_zero (x y : float) :
  (y =? 0) = true -> truediv x y = raise ZeroDivisionError.
Proof. intros H. unfold truediv. rewrite H. reflexivity. Qed.

Lemma inverting_opamp_gain64_ok (feedback_res g_res : float) :
  (g_res =? 0) = false ->
  inverting_opamp_gain feedback_res g_res = ret (feedback_res / g_res).
Proof.
  intros H. unfold inverting_opamp_gain.
  rewrite truediv64_ok by exact H. rewrite bind64_ret_l. reflexivity.
Qed.

Lemma parallel_res64_ok (res_one res_two : float) :
  (res_one + res_two =? 0) = false ->
  parallel_res res_one res_two = ret (Req_of res_one res_two).
Proof.
  intros H. unfold parallel_res.
  rewrite truediv64_ok by exact H. rewrite bind64_ret_l. reflexivity.
Qed.

Lemma parallel_res64_zero (res_one res_two : float) :
  (res_one + res_two =? 0) = true ->
  parallel_res res_one res_two = raise ZeroDivisionError.
Proof.
  intros H. unfold parallel_res.
  rewrite truediv64_zero by exact H. reflexivity.
Qed.

Lemma noise_gain64_ok (feedback_res res_g : float) :
  (res_g =? 0) = false ->
  noise_gain feedback_res res_g = ret (gain_of feedback_res res_g).
Proof.
  intros H. unfold noise_gain.
  rewrite truediv64_ok by exact H. rewrite bind64_ret_l. reflexivity.
Qed.

Lemma noise_gain64_zero (feedback_res res_g : float) :
  (res_g =? 0) = true ->
  noise_gain feedback_res res_g = raise ZeroDivisionError.
Proof.
  intros H. unfold noise_gain.
  rewrite truediv64_zero by exact H. reflexivity.
Qed.

Lemma opamp_broadband_noise64_ok (opamp_GBW ng filter_order : float) :
  (ng =? 0) = false ->
  opamp_broadband_noise opamp_GBW ng filter_order
  = ret (filter_order * (opamp_GBW / ng)).
Proof.
  intros H. unfold opamp_broadband_noise.
  rewrite truediv64_ok by exact H. rewrite bind64_ret_l. reflexivity.
Qed.

Lemma opamp_broadband_noise64_zero (opamp_GBW ng filter_order : float) :
  (ng =? 0) = true ->
  opamp_broadband_noise opamp_GBW ng filter_order
  = raise ZeroDivisionError.
Proof.
  intros H. unfold opamp_broadband_noise.
  rewrite truediv64_zero by exact H. reflexivity.
Qed.

Lemma opamp_circuit_current_noise64_ok (feedback_res g_res i : float) :
  (feedback_res + g_res =? 0) = false ->
  opamp_circuit_current_noise feedback_res g_res i
  = ret (Req_of feedback_res g_res * i).
Proof.
  intros H. unfold opamp_circuit_current_noise.
  rewrite parallel_res64_ok by exact H. rewrite bind64_ret_l. reflexivity.
Qed.

(** Positive resistors pass all three divisions. *)
Lemma resistors_ok_positive (feedback_res g_res : float) :
  (0 <? feedback_res) = true -> (0 <? g_res) = true ->
  resistors_ok feedback_res g_res = true.
Proof.
  intros Hf Hg. unfold resistors_ok, gain_of.
  rewrite (positive_nonzero _ (add_positive _ _ Hf Hg)).
  rewrite (positive_nonzero _ Hg).
  rewrite (one_plus_quotient_nonzero _ _ Hf Hg). reflexivity.
Qed.

Lemma resistors_ok_inv (feedback_res g_res : float) :
  resistors_ok feedback_res g_res = true ->
  (feedback_res + g_res =? 0) = false /\ (g_res =? 0) = false /\
  (gain_of feedback_res g_res =? 0) = false.
Proof.
  unfold resistors_ok. intros H.
  apply andb_prop in H. destruct H as [H H3].
  apply andb_prop in H. destruct H as [H1 H2].
  apply negb_true_iff in H1, H2, H3. auto.
Qed.

(** The tail of each branch of [total_input_noise_rms]. *)
Lemma quadrature_integrate (v i feedback_res g_res bw hz : float) :
  (q <~ quadrature v (Req_of feedback_res g_res * i)
          (resistor_thermal_noise (Req_of feedback_res g_res)) ;;
   let total_input_voltage_noise := q * np_sqrt bw in
   print (AtBandwidth hz) ~;; ret total_input_voltage_noise)
  = integrate v i feedback_res g_res bw hz.
Proof.
  unfold integrate, squares_overflow, quadrature, pow2, density_of.
  destruct (overflows v); [reflexivity |].
  destruct (overflows (Req_of feedback_res g_res * i)); reflexivity.
Qed.

Section Total.

Variables v i feedback_res g_res opamp_GBW : float.

(** A failing resistor pair fails the call before the filter is looked at,
    with nothing printed. *)
Lemma total_input_noise_rms64_resistor_error (filter_res filter_cap : obj) :
  resistors_ok feedback_res g_res = false ->
  total_input_noise_rms v i feedback_res g_res opamp_GBW filter_res filter_cap
  = raise ZeroDivisionError.
Proof.
  intros H. unfold total_input_noise_rms.
  destruct (feedback_res + g_res =? 0) eqn:Es.
  { rewrite parallel_res64_zero by exact Es. reflexivity. }
  rewrite !parallel_res64_ok by exact Es. rewrite !bind64_ret_l.
  destruct (g_res =? 0) eqn:Eg.
  { rewrite noise_gain64_zero by exact Eg. reflexivity. }
  rewrite noise_gain64_ok by exact Eg. rewrite bind64_ret_l.
  destruct (gain_of feedback_res g_res =? 0) eqn:En.
  { rewrite opamp_broadband_noise64_zero by exact En. reflexivity. }
  unfold resistors_ok in H. rewrite Es, Eg, En in H. discriminate.
Qed.

Hypothesis Hres : resistors_ok feedback_res g_res = true.

Let bb := broadband_of feedback_res g_res opamp_GBW.

(** Past the resistor computations. *)
Lemma total_input_noise_rms64_prefix (filter_res filter_cap : obj) :
  total_input_noise_rms v i feedback_res g_res opamp_GBW filter_res filter_cap
  = if no_filter filter_res filter_cap then
      integrate v i feedback_res g_res bb bb
    else
      d1 <~ mul (2 * pi) filter_res ;;
      d2 <~ mul d1 filter_cap ;;
      rc_freq <~ truediv 1 d2 ;;
      if bb <? rc_freq then integrate v i feedback_res g_res bb bb
      else integrate v i feedback_res g_res (1.57 * rc_freq) rc_freq.
Proof.
  destruct (resistors_ok_inv _ _ Hres) as (Es & Eg & En).
  unfold total_input_noise_rms.
  rewrite !parallel_res64_ok by exact Es. rewrite !bind64_ret_l.
  rewrite noise_gain64_ok by exact Eg. rewrite bind64_ret_l.
  rewrite opamp_broadband_noise64_ok by exact En. rewrite bind64_ret_l.
  fold (broadband_of feedback_res g_res opamp_GBW). fold bb.
  rewrite !quadrature_integrate.
  destruct (no_filter filter_res filter_cap); [reflexivity |].
  destruct filter_res as [| r]; [reflexivity |].
  cbn [mul]. rewrite !bind64_ret_l.
  destruct filter_cap as [| c]; [reflexivity |].
  cbn [mul]. rewrite !bind64_ret_l.
  unfold truediv. destruct (2 * pi * r * c =? 0); [reflexivity |].
  rewrite !bind64_ret_l. rewrite quadrature_integrate. reflexivity.
Qed.

Lemma total_input_noise_rms64_unfiltered (filter_res filter_cap : obj) :
  no_filter filter_res filter_cap = true ->
  total_input_noise_rms v i feedback_res g_res opamp_GBW filter_res filter_cap
  = integrate v i feedback_res g_res bb bb.
Proof.
  intros H. rewrite total_input_noise_rms64_prefix, H. reflexivity.
Qed.

Lemma total_input_noise_rms64_filtered (r c : float) :
  no_filter (PyFloat r) (PyFloat c) = false ->
  total_input_noise_rms v i feedback_res g_res opamp_GBW
    (PyFloat r) (PyFloat c)
  = if product_of r c =? 0 then raise ZeroDivisionError
    else if bb <? rc_freq_of r c
         then integrate v i feedback_res g_res bb bb
         else integrate v i feedback_res g_res
                (1.57 * rc_freq_of r c) (rc_freq_of r c).
Proof.
  intros H. rewrite total_input_noise_rms64_prefix, H.
  cbn [mul]. rewrite !bind64_ret_l.
  fold (product_of r c). unfold truediv.
  destruct (product_of r c =? 0) eqn:E; [reflexivity |].
  rewrite bind64_ret_l. fold (rc_freq_of r c). reflexivity.
Qed.

Lemma total_input_noise_rms64_none (filter_res filter_cap : obj) :
  no_filter filter_res filter_cap = false ->
  filter_res = PyNone \/ filter_cap = PyNone ->
  total_input_noise_rms v i feedback_res g_res opamp_GBW filter_res filter_cap
  = raise TypeError.
Proof.
  intros H Hn. rewrite total_input_noise_rms64_prefix, H.
  destruct filter_res as [| r]; [reflexivity |].
  destruct Hn as [Hn | ->]; [discriminate |].
  cbn [mul]. rewrite bind64_ret_l. reflexivity.
Qed.

End Total.

Lemma truth_positive (x : float) :
  (0 <? x) = true -> truth (PyFloat x) = true.
Proof.
  intros H. cbn [truth]. rewrite (positive_nonzero _ H). reflexivity.
Qed.

Lemma no_filter_truthy (r : float) (o : obj) :
  truth (PyFloat r) = true -> no_filter (PyFloat r) o = false.
Proof.
  intros H. unfold no_filter, or_. rewrite H, H. reflexivity.
Qed.

End Engine64Runs.

(** ** The integration step in binary64 *)

Section Integration64.

Import Py64 Engine64.
Local Open Scope float_scope.

(** C1, as the code computes it in binary64: with positive arguments and a
    filter present the function computes
    [rc_corner = 1 / (2 * pi * filter_res * filter_cap)] and
    [bb_bandwidth = 1.57 * (gbw / noise_gain feedback_res g_res)], each
    operation rounded.  If the product under [rc_corner] underflows to zero
    the call raises [ZeroDivisionError]; if the square of the voltage noise
    or of the current noise overflows it raises [OverflowError]; otherwise
    it returns the quadrature combination of the three noise densities
    times [sqrt bb_bandwidth] when the computed [rc_corner] is greater than
    the computed [bb_bandwidth], and times [sqrt (1.57 * rc_corner)] when
    it is not. *)
Theorem total_input_noise_rms_with_filter
  (voltage_noise_density current_noise_density feedback_res g_res gbw
   filter_res filter_cap : float) :
  (0 <? voltage_noise_density) = true ->
  (0 <? current_noise_density) = true ->
  (0 <? feedback_res) = true -> (0 <? g_res) = true -> (0 <? gbw) = true ->
  (0 <? filter_res) = true -> (0 <? filter_cap) = true ->
  let Req := feedback_res * g_res / (feedback_res + g_res) in
  let ng := 1 + feedback_res / g_res in
  let bb_bandwidth := 1.57 * (gbw / ng) in
  let product := 2 * pi * filter_res * filter_cap in
  let rc_corner := 1 / product in
  let current_noise := Req * current_noise_density in
  let resistor_noise := PrimFloat.sqrt (4 * k * temp * Req) in
  let density :=
    PrimFloat.sqrt
      (voltage_noise_density * voltage_noise_density
       + current_noise * current_noise
       + resistor_noise * resistor_noise) in
  let overflow := overflows voltage_noise_density || overflows current_noise in
  let run :=
    total_input_noise_rms voltage_noise_density current_noise_density
      feedback_res g_res gbw (PyFloat filter_res) (PyFloat filter_cap) in
  returned (noise_gain feedback_res g_res) = inr ng /\
  returned (parallel_res feedback_res g_res) = inr Req /\
  resistor_thermal_noise Req = resistor_noise /\
  ((product =? 0) = true -> returned run = inl ZeroDivisionError) /\
  ((product =? 0) = false -> overflow = true ->
   returned run = inl OverflowError) /\
  ((product =? 0) = false -> overflow = false ->
   ((bb_bandwidth <? rc_corner) = true ->
    returned run = inr (density * PrimFloat.sqrt bb_bandwidth)) /\
   ((bb_bandwidth <? rc_corner) = false ->
    returned run = inr (density * PrimFloat.sqrt (1.57 * rc_corner)))).
Proof.
  intros Hv Hi Hf Hg Hb Hr Hc Req ng bb_bandwidth product rc_corner
    current_noise resistor_noise density overflow run.
  pose proof (resistors_ok_positive _ _ Hf Hg) as Hres.
  destruct (resistors_ok_inv _ _ Hres) as (Es & Eg & En).
  rewrite noise_gain64_ok by exact Eg.
  rewrite parallel_res64_ok by exact Es.
  assert (Hrun : run =
    if product =? 0 then raise ZeroDivisionError
    else if bb_bandwidth <? rc_corner
         then integrate voltage_noise_density current_noise_density
                feedback_res g_res bb_bandwidth bb_bandwidth
         else integrate voltage_noise_density current_noise_density
                feedback_res g_res (1.57 * rc_corner) rc_corner).
  { unfold run. rewrite total_input_noise_rms64_filtered;
      [reflexivity | exact Hres |].
    apply no_filter_truthy. apply truth_positive. exact Hr. }
  rewrite Hrun. unfold integrate.
  change (squares_overflow voltage_noise_density current_noise_density
            feedback_res g_res) with overflow.
  change (density_of voltage_noise_density current_noise_density
            feedback_res g_res) with density.
  split; [reflexivity |]. split; [reflexivity |]. split; [reflexivity |].
  split; [intros ->; reflexivity |].
  split.
  - intros -> ->. destruct (bb_bandwidth <? rc_corner); reflexivity.
  - intros -> ->. split; intros ->; reflexivity.
Qed.

(** The first stage of the voltage-reference example: a 10 kOhm, 33 uF
    filter after an ADA4522 at gain one is filter-limited. *)
Lemma total_input_noise_rms_with_filter_witness :
  returned
    (total_input_noise_rms 5.8e-9 0.8e-12 5e3 5e3 2.7e6
       (PyFloat 10e3) (PyFloat 33e-6))
  = inr 7.6615282343788384e-09.
Proof.
  destruct (total_input_noise_rms_with_filter
              5.8e-9 0.8e-12 5e3 5e3 2.7e6 10e3 33e-6
              eq_refl eq_refl eq_refl eq_refl eq_refl eq_refl eq_refl)
    as (_ & _ & _ & _ & _ & H).
  destruct (H eq_refl eq_refl) as [_ Hlow].
  rewrite (Hlow eq_refl). vm_compute. reflexivity.
Defined.

(** C1 as stated fails for a positive voltage noise density whose square
    overflows, and for a positive filter whose product underflows. *)
Lemma total_input_noise_rms_with_filter_raises :
  (0 <? 1e200) = true /\
  returned
    (total_input_noise_rms 1e200 0.8e-12 5e3 5e3 2.7e6
       (PyFloat 10e3) (PyFloat 33e-6)) = inl OverflowError /\
  (0 <? 1e-200) = true /\
  returned
    (total_input_noise_rms 5.8e-9 0.8e-12 5e3 5e3 2.7e6
       (PyFloat 1e-200) (PyFloat 1e-200)) = inl ZeroDivisionError.
Proof. vm_compute. repeat split. Qed.

(** C5, as the code computes it in binary64: with positive arguments and
    both filter arguments omitted the bandwidth is
    [opamp_broadband_noise gbw (noise_gain feedback_res g_res)], that is
    [1.57 * (gbw / (1 + feedback_res / g_res))] with each operation
    rounded.  If the square of the voltage noise or of the current noise
    overflows the call raises [OverflowError]; otherwise it returns the
    quadrature sum of the three densities times the square root of that
    bandwidth, and prints that bandwidth. *)
Theorem total_input_noise_rms_without_filter
  (voltage_noise_density current_noise_density feedback_res g_res gbw
   : float) :
  (0 <? voltage_noise_density) = true ->
  (0 <? current_noise_density) = true ->
  (0 <? feedback_res) = true -> (0 <? g_res) = true -> (0 <? gbw) = true ->
  let Req := feedback_res * g_res / (feedback_res + g_res) in
  let ng := 1 + feedback_res / g_res in
  let bandwidth := 1.57 * (gbw / ng) in
  let current_noise := Req * current_noise_density in
  let resistor_noise := PrimFloat.sqrt (4 * k * temp * Req) in
  let density :=
    PrimFloat.sqrt
      (voltage_noise_density * voltage_noise_density
       + current_noise * current_noise
       + resistor_noise * resistor_noise) in
  let overflow := overflows voltage_noise_density || overflows current_noise in
  let run :=
    total_input_noise_rms voltage_noise_density current_noise_density
      feedback_res g_res gbw PyNone PyNone in
  returned (noise_gain feedback_res g_res) = inr ng /\
  returned (opamp_broadband_noise gbw ng filter_order_default)
    = inr bandwidth /\
  returned (parallel_res feedback_res g_res) = inr Req /\
  resistor_thermal_noise Req = resistor_noise /\
  (overflow = true -> returned run = inl OverflowError) /\
  (overflow = false ->
   run = (inr (density * PrimFloat.sqrt bandwidth), [AtBandwidth bandwidth])).
Proof.
  intros Hv Hi Hf Hg Hb Req ng bandwidth current_noise resistor_noise
    density overflow run.
  pose proof (resistors_ok_positive _ _ Hf Hg) as Hres.
  destruct (resistors_ok_inv _ _ Hres) as (Es & Eg & En).
  rewrite noise_gain64_ok by exact Eg.
  rewrite parallel_res64_ok by exact Es.
  rewrite opamp_broadband_noise64_ok by exact En.
  unfold run.
  rewrite total_input_noise_rms64_unfiltered by (exact Hres || reflexivity).
  unfold integrate.
  change (squares_overflow voltage_noise_density current_noise_density
            feedback_res g_res) with overflow.
  change (density_of voltage_noise_density current_noise_density
            feedback_res g_res) with density.
  change (broadband_of feedback_res g_res gbw) with bandwidth.
  split; [reflexivity |]. split; [reflexivity |]. split; [reflexivity |].
  split; [reflexivity |].
  split; intros ->; reflexivity.
Qed.

(** The output buffer of the voltage-reference example: an AD8676 at noise
    gain two with no filter integrates over [1.57 * (10e6 / 2)] Hz. *)
Lemma total_input_noise_rms_without_filter_witness :
  total_input_noise_rms 2.8e-9 0.3e-12 1 1 10e6 PyNone PyNone
  = (inr 7.8489881460367228e-06, [AtBandwidth 7850000]).
Proof.
  destruct (total_input_noise_rms_without_filter
              2.8e-9 0.3e-12 1 1 10e6
              eq_refl eq_refl eq_refl eq_refl eq_refl)
    as (_ & _ & _ & _ & _ & H).
  rewrite (H eq_refl). vm_compute. reflexivity.
Defined.

(** C5 as stated fails for a positive voltage noise density whose square
    overflows: the call raises instead of returning.  And the bandwidth is
    [1.57 * (gbw / noise_gain)], which is not always the float
    [1.57 * gbw / noise_gain]: at noise gain three the two differ. *)
Lemma total_input_noise_rms_without_filter_raises :
  (0 <? 1e200) = true /\
  returned (total_input_noise_rms 1e200 0.3e-12 1 1 10e6 PyNone PyNone)
  = inl OverflowError /\
  stdout (total_input_noise_rms 2.8e-9 0.3e-12 2 1 10e6 PyNone PyNone)
  = [AtBandwidth 5233333.333333334] /\
  1.57 * 10e6 / (1 + 2 / 1) = 5233333.333333333 /\
  (5233333.333333333 =? 5233333.333333334) = false.
Proof. vm_compute. repeat split. Qed.

End Integration64.

(** ** The filter arguments are not validated *)

Section FilterValues64.

Import Py64 Engine64.
Local Open Scope float_scope.

Lemma no_filter64_falsy (filter_res filter_cap : obj) :
  truth filter_res = false -> truth filter_cap = false ->
  no_filter filter_res filter_cap = true.
Proof.
  intros Hr Hc. unfold no_filter, or_. rewrite Hr, Hc. reflexivity.
Qed.

(** C3 as stated fails: with both filter values zero the call does not fail
    but returns what the call without a filter returns, and two negative
    values are accepted as well: they give the result of their absolute
    values. *)
Lemma total_input_noise_rms_zero_filter_accepted :
  total_input_noise_rms 1.0e-9 21.7e-12 100e3 1e3 80e6
    (PyFloat 0) (PyFloat 0)
  = (inr 2.4391170929132682e-05, [AtBandwidth 1243564.3564356435]) /\
  total_input_noise_rms 1.0e-9 21.7e-12 100e3 1e3 80e6 PyNone PyNone
  = (inr 2.4391170929132682e-05, [AtBandwidth 1243564.3564356435]) /\
  total_input_noise_rms 1.0e-9 21.7e-12 100e3 1e3 80e6
    (PyFloat (-5e3)) (PyFloat (-4.7e-9))
  = (inr 2.2554046825262564e-06, [AtBandwidth 6772.5507698678875]) /\
  total_input_noise_rms 1.0e-9 21.7e-12 100e3 1e3 80e6
    (PyFloat 5e3) (PyFloat 4.7e-9)
  = (inr 2.2554046825262564e-06, [AtBandwidth 6772.5507698678875]).
Proof. vm_compute. repeat split. Qed.

(** C3, as the code behaves: the filter arguments are not validated.  With
    positive [feedback_res] and [g_res]: two falsy arguments (zero or
    [None]) are the call without a filter; two floats, not both zero,
    whose product [2 * pi * filter_res * filter_cap] computes to zero (one
    of them is zero, or the product underflows) fail with
    [ZeroDivisionError], raised by the division that computes the RC
    corner; any other two floats, negative ones included, are accepted: the
    call returns unless one of the two Python squares overflows. *)
Theorem total_input_noise_rms_invalid_filter
  (v i feedback_res g_res gbw : float) :
  (0 <? feedback_res) = true -> (0 <? g_res) = true ->
  let call := total_input_noise_rms v i feedback_res g_res gbw in
  (forall filter_res filter_cap,
     truth filter_res = false -> truth filter_cap = false ->
     call filter_res filter_cap = call PyNone PyNone) /\
  (forall r c,
     (r =? 0) && (c =? 0) = false -> (2 * pi * r * c =? 0) = true ->
     call (PyFloat r) (PyFloat c) = raise ZeroDivisionError) /\
  (forall r c,
     (2 * pi * r * c =? 0) = false ->
     (exists x, returned (call (PyFloat r) (PyFloat c)) = inr x) <->
     overflows v = false /\
     overflows (feedback_res * g_res / (feedback_res + g_res) * i) = false).
Proof.
  intros Hf Hg call. unfold call.
  pose proof (resistors_ok_positive _ _ Hf Hg) as Hres.
  split; [| split].
  - intros filter_res filter_cap Hr Hc.
    rewrite (total_input_noise_rms64_unfiltered v i _ _ gbw Hres
               PyNone PyNone eq_refl).
    apply total_input_noise_rms64_unfiltered; [exact Hres |].
    apply no_filter64_falsy; assumption.
  - intros r c Hrc Hp.
    assert (Hnf : no_filter (PyFloat r) (PyFloat c) = false).
    { unfold no_filter, or_. cbn [truth].
      destruct (r =? 0) eqn:Er; cbn [negb andb] in *.
      - cbn [truth]. rewrite Hrc. reflexivity.
      - cbn [truth]. rewrite Er. reflexivity. }
    rewrite total_input_noise_rms64_filtered by assumption.
    unfold product_of. rewrite Hp. reflexivity.
  - intros r c Hp.
    assert (Hrun : exists bw hz,
      total_input_noise_rms v i feedback_res g_res gbw
        (PyFloat r) (PyFloat c)
      = integrate v i feedback_res g_res bw hz).
    { destruct (no_filter (PyFloat r) (PyFloat c)) eqn:Hnf.
      - rewrite total_input_noise_rms64_unfiltered by assumption.
        do 2 eexists; reflexivity.
      - rewrite total_input_noise_rms64_filtered by assumption.
        unfold product_of. rewrite Hp.
        destruct (broadband_of feedback_res g_res gbw <? rc_freq_of r c);
          do 2 eexists; reflexivity. }
    destruct Hrun as (bw & hz & ->).
    unfold integrate, squares_overflow.
    change (Req_of feedback_res g_res)
      with (feedback_res * g_res / (feedback_res + g_res)).
    destruct (overflows v);
      [| destruct (overflows (feedback_res * g_res / (feedback_res + g_res) * i))];
      cbn [orb returned raise fst]; split;
      try (intros [x Hx]; discriminate);
      try (intros [H1 H2]; discriminate);
      try (intros _; eauto).
Qed.

(** A zero resistance next to the default capacitor, and the reverse. *)
Lemma total_input_noise_rms_invalid_filter_witness :
  total_input_noise_rms 1.0e-9 21.7e-12 100e3 1e3 80e6
    (PyFloat 0) (PyFloat 4.7e-9) = raise ZeroDivisionError /\
  total_input_noise_rms 1.0e-9 21.7e-12 100e3 1e3 80e6
    (PyFloat 5e3) (PyFloat 0) = raise ZeroDivisionError /\
  total_input_noise_rms 1.0e-9 21.7e-12 100e3 1e3 80e6
    (PyFloat 1e-200) (PyFloat 1e-200) = raise ZeroDivisionError.
Proof.
  destruct (total_input_noise_rms_invalid_filter
              1.0e-9 21.7e-12 100e3 1e3 80e6 eq_refl eq_refl)
    as (_ & H & _).
  repeat split; apply H; reflexivity.
Defined.

End FilterValues64.

(** ** Dominance, parallel resistance and monotonicity in binary64 *)

Section Dominance64.

Import Py64 Engine64.
Local Open Scope float_scope.

(** C4: for positive [feedback_res] and [g_res] and any
    [opamp_input_voltage_noise], the classifier returns a boolean that is
    [true] exactly when the voltage noise is greater than three times the
    thermal noise of the parallel resistance (as the code computes that
    product); when the voltage noise equals that product it returns
    [false]. *)
Theorem resistor_or_opamp_noise_dominant_spec
  (feedback_res g_res opamp_input_voltage_noise : float) :
  (0 <? feedback_res) = true -> (0 <? g_res) = true ->
  exists Req rn b,
    returned (parallel_res feedback_res g_res) = inr Req /\
    resistor_thermal_noise Req = rn /\
    returned (resistor_or_opamp_noise_dominant
                feedback_res g_res opamp_input_voltage_noise) = inr b /\
    (b = true <-> (3 * rn <? opamp_input_voltage_noise) = true) /\
    ((opamp_input_voltage_noise =? 3 * rn) = true -> b = false).
Proof.
  intros Hf Hg.
  pose proof (positive_nonzero _ (add_positive _ _ Hf Hg)) as Es.
  exists (Req_of feedback_res g_res),
    (resistor_thermal_noise (Req_of feedback_res g_res)).
  unfold resistor_or_opamp_noise_dominant.
  rewrite parallel_res64_ok by exact Es. rewrite bind64_ret_l.
  set (rn := resistor_thermal_noise (Req_of feedback_res g_res)).
  destruct (opamp_input_voltage_noise <? 3 * rn) eqn:E1.
  - exists false. repeat split; intros H; try discriminate.
    + rewrite (ltb_antisym _ _ E1) in H. discriminate.
  - destruct (3 * rn <? opamp_input_voltage_noise) eqn:E2.
    + exists true. repeat split; intros H; try reflexivity.
      destruct (eqb_not_ltb _ _ H) as [_ H']. congruence.
    + exists false. repeat split; intros H; try discriminate; reflexivity.
Qed.

(** A tie the code reaches: at 5 kOhm and 5 kOhm three times the thermal
    noise rounds to the voltage noise given, and the answer is [False]. *)
Lemma resistor_or_opamp_noise_dominant_spec_witness :
  (1.8945659133426847e-08
   =? 3 * resistor_thermal_noise (5e3 * 5e3 / (5e3 + 5e3))) = true /\
  returned (resistor_or_opamp_noise_dominant 5e3 5e3 1.8945659133426847e-08)
  = inr false.
Proof.
  split; [vm_compute; reflexivity |].
  destruct (resistor_or_opamp_noise_dominant_spec
              5e3 5e3 1.8945659133426847e-08 eq_refl eq_refl)
    as (Req & rn & b & HReq & Hrn & Hb & _ & Htie).
  rewrite Hb. f_equal. apply Htie.
  vm_compute in HReq. injection HReq as <-.
  rewrite <- Hrn. vm_compute. reflexivity.
Defined.







End Dominance64.

(** ** Further properties of the binary64 engine *)

Section Outcomes64.

Import Py64 Engine64.
Local Open Scope float_scope.

(** A call that raises has printed nothing; a call that returns has passed
    every test on the way. *)
Lemma total_input_noise_rms64_cases
  (v i feedback_res g_res opamp_GBW : float) (filter_res filter_cap : obj) :
  let run :=
    total_input_noise_rms v i feedback_res g_res opamp_GBW
      filter_res filter_cap in
  (exists e, run = raise e /\
     (resistors_ok feedback_res g_res = false \/
      (no_filter filter_res filter_cap = false /\
       (filter_res = PyNone \/ filter_cap = PyNone \/
        exists r c, filter_res = PyFloat r /\ filter_cap = PyFloat c /\
                    (product_of r c =? 0) = true)) \/
      squares_overflow v i feedback_res g_res = true)) \/
  (exists x hz, run = (inr x, [AtBandwidth hz]) /\
     resistors_ok feedback_res g_res = true /\
     (no_filter filter_res filter_cap = true \/
      exists r c, filter_res = PyFloat r /\ filter_cap = PyFloat c /\
                  (product_of r c =? 0) = false) /\
     squares_overflow v i feedback_res g_res = false).
Proof.
  intros run. unfold run.
  destruct (resistors_ok feedback_res g_res) eqn:Hres.
  2:{ left. exists ZeroDivisionError.
      rewrite total_input_noise_rms64_resistor_error by exact Hres. auto. }
  assert (Hint : forall bw hz,
    (integrate v i feedback_res g_res bw hz = raise OverflowError /\
     squares_overflow v i feedback_res g_res = true) \/
    (exists x, integrate v i feedback_res g_res bw hz
               = (inr x, [AtBandwidth hz]) /\
     squares_overflow v i feedback_res g_res = false)).
  { intros bw hz. unfold integrate.
    destruct (squares_overflow v i feedback_res g_res); [left | right]; eauto. }
  destruct (no_filter filter_res filter_cap) eqn:Hnf.
  - rewrite total_input_noise_rms64_unfiltered by assumption.
    destruct (Hint (broadband_of feedback_res g_res opamp_GBW)
                   (broadband_of feedback_res g_res opamp_GBW))
      as [[-> Ho] | (x & -> & Ho)].
    + left. eexists. split; [reflexivity | auto].
    + right. exists x. eexists. split; [reflexivity | auto].
  - destruct filter_res as [| r].
    { left. exists TypeError.
      rewrite total_input_noise_rms64_none by auto.
      split; [reflexivity |]. right. left. split; [reflexivity |].
      left. reflexivity. }
    destruct filter_cap as [| c].
    { left. exists TypeError.
      rewrite total_input_noise_rms64_none by auto.
      split; [reflexivity |]. right. left. split; [reflexivity |].
      right. left. reflexivity. }
    rewrite total_input_noise_rms64_filtered by assumption.
    destruct (product_of r c =? 0) eqn:Ep.
    { left. exists ZeroDivisionError. split; [reflexivity |].
      right. left. split; [reflexivity |]. right. right. eauto. }
    destruct (broadband_of feedback_res g_res opamp_GBW <? rc_freq_of r c).
    + destruct (Hint (broadband_of feedback_res g_res opamp_GBW)
                     (broadband_of feedback_res g_res opamp_GBW))
        as [[-> Ho] | (x & -> & Ho)].
      * left. eexists. split; [reflexivity | auto].
      * right. exists x. eexists. split; [reflexivity |].
        split; [reflexivity |]. split; [| exact Ho]. right. eauto.
    + destruct (Hint (1.57 * rc_freq_of r c) (rc_freq_of r c))
        as [[-> Ho] | (x & -> & Ho)].
      * left. eexists. split; [reflexivity | auto].
      * right. exists x. eexists. split; [reflexivity |].
        split; [reflexivity |]. split; [| exact Ho]. right. eauto.
Qed.

(** [np.sqrt] never returns a number below zero. *)
Lemma sqrt_not_negative (x : float) : (PrimFloat.sqrt x <? 0) = false.
Proof.
  destruct (PrimFloat.sqrt x <? 0) eqn:E; [| reflexivity].
  apply negative_spec in E. rewrite FloatAxioms.sqrt_spec in E.
  unfold SF64sqrt, SFsqrt in E.
  destruct (Prim2SF x) as [s | [] | | [] m e];
    try (destruct E as [(m' & e' & E) | E]; discriminate E).
  destruct (SFsqrt_core_binary prec emax (Z.pos m) e) as [[mz ez] lz].
  pose proof (binary_round_aux_signed false mz ez lz) as Hs.
  unfold signed in Hs.
  destruct E as [(m' & e' & E) | E]; rewrite E in Hs;
    destruct Hs as [Hs | [(m'' & e'' & Hs) | [Hs | Hs]]]; discriminate Hs.
Qed.

(** X4: [resistor_thermal_noise] in binary64 never returns a number below
    zero, whatever the resistance; it is nan when the radicand
    [4 * k * temp * res] computes to a negative number, which a negative
    resistance so small that the product underflows does not reach; at
    1 kOhm it is 3.994095642320048e-09 V/sqrt(Hz). *)
Theorem resistor_thermal_noise_edges :
  (forall res, (resistor_thermal_noise res <? 0) = false) /\
  (forall res, (4 * k * temp * res <? 0) = true ->
     is_nan (resistor_thermal_noise res) = true) /\
  is_nan (resistor_thermal_noise (-1e-310)) = false /\
  resistor_thermal_noise 1000 = 3.994095642320048e-09.
Proof.
  split; [| split; [| split]].
  - intros res. apply sqrt_not_negative.
  - intros res H. apply sqrt_negative_nan. exact H.
  - vm_compute. reflexivity.
  - vm_compute. reflexivity.
Qed.

(** X6: in binary64 the call returns exactly when none of its divisors is
    zero ([feedback_res + g_res], [g_res], the noise gain and, in the
    filter branch, the product [2 * pi * filter_res * filter_cap]), the
    filter arguments are both falsy or both floats, and neither Python
    square overflows; a call that raises has printed nothing. *)
Theorem total_input_noise_rms_returns_iff
  (v i feedback_res g_res opamp_GBW : float) (filter_res filter_cap : obj) :
  let run :=
    total_input_noise_rms v i feedback_res g_res opamp_GBW
      filter_res filter_cap in
  ((exists x, returned run = inr x)
   <->
   (feedback_res + g_res =? 0) = false /\ (g_res =? 0) = false /\
   (1 + feedback_res / g_res =? 0) = false /\
   (no_filter filter_res filter_cap = true \/
    exists r c, filter_res = PyFloat r /\ filter_cap = PyFloat c /\
                (2 * pi * r * c =? 0) = false) /\
   overflows v = false /\
   overflows (feedback_res * g_res / (feedback_res + g_res) * i) = false) /\
  (forall e, returned run = inl e -> stdout run = []).
Proof.
  intros run.
  destruct (total_input_noise_rms64_cases v i feedback_res g_res opamp_GBW
              filter_res filter_cap)
    as [(e & Hrun & Hwhy) | (x & hz & Hrun & Hres & Hfl & Hov)];
    fold run in Hrun; rewrite Hrun; cbn [returned stdout raise fst snd].
  - split; [| reflexivity]. split; [intros [x Hx]; discriminate |].
    intros (Es & Eg & En & Hfl & Hv & Hc). exfalso.
    destruct Hwhy as [Hres | [[Hnf Hbad] | Hov]].
    + unfold resistors_ok, gain_of in Hres.
      rewrite Es, Eg, En in Hres. discriminate.
    + destruct Hfl as [Hfl | (r & c & -> & -> & Hp)]; [congruence |].
      destruct Hbad as [Hbad | [Hbad | (r' & c' & Hr' & Hc' & Hp')]];
        try discriminate.
      injection Hr' as <-. injection Hc' as <-.
      unfold product_of in Hp'. congruence.
    + unfold squares_overflow, Req_of in Hov.
      rewrite Hv, Hc in Hov. discriminate.
  - split; [| intros e He; discriminate].
    split; [intros _ | intros _; eauto].
    destruct (resistors_ok_inv _ _ Hres) as (Es & Eg & En).
    unfold squares_overflow in Hov. apply orb_false_iff in Hov.
    destruct Hov as [Hv Hc].
    repeat split; assumption.
Qed.

(** X10: with positive resistors and a positive filter whose product
    [2 * pi * filter_res * filter_cap] is not zero, a corner frequency
    computed above the amplifier bandwidth makes the call the same as the
    call without a filter: same value or exception, same line. *)
Theorem total_input_noise_rms_filter_above_bandwidth
  (v i feedback_res g_res opamp_GBW filter_res filter_cap : float) :
  (0 <? feedback_res) = true -> (0 <? g_res) = true ->
  (0 <? filter_res) = true -> (0 <? filter_cap) = true ->
  let product := 2 * pi * filter_res * filter_cap in
  let bb := 1.57 * (opamp_GBW / (1 + feedback_res / g_res)) in
  (product =? 0) = false -> (bb <? 1 / product) = true ->
  total_input_noise_rms v i feedback_res g_res opamp_GBW
    (PyFloat filter_res) (PyFloat filter_cap)
  = total_input_noise_rms v i feedback_res g_res opamp_GBW PyNone PyNone.
Proof.
  intros Hf Hg Hr Hc product bb Hp Hcmp.
  pose proof (resistors_ok_positive _ _ Hf Hg) as Hres.
  rewrite (total_input_noise_rms64_unfiltered v i _ _ opamp_GBW Hres
             PyNone PyNone eq_refl).
  rewrite total_input_noise_rms64_filtered;
    [| exact Hres | apply no_filter_truthy, truth_positive; exact Hr].
  change (product_of filter_res filter_cap) with product. rewrite Hp.
  change (rc_freq_of filter_res filter_cap) with (1 / product).
  change (broadband_of feedback_res g_res opamp_GBW) with bb.
  rewrite Hcmp. reflexivity.
Qed.

(** A 1 kOhm, 1 pF filter has its corner near 159 MHz, above the 2.1 MHz
    of the amplifier at noise gain two. *)
Lemma total_input_noise_rms_filter_above_bandwidth_witness :
  total_input_noise_rms 5.8e-9 0.8e-12 1e3 1e3 2.7e6
    (PyFloat 1e3) (PyFloat 1e-12)
  = total_input_noise_rms 5.8e-9 0.8e-12 1e3 1e3 2.7e6 PyNone PyNone.
Proof.
  apply (total_input_noise_rms_filter_above_bandwidth
           5.8e-9 0.8e-12 1e3 1e3 2.7e6 1e3 1e-12);
    vm_compute; reflexivity.
Defined.

(** X11: the bandwidth line.  With positive resistors and a positive filter
    whose corner [rc] is computed not above the amplifier bandwidth, and
    squares that do not overflow, the value returned is the quadrature sum
    times [sqrt (1.57 * rc)] while the line printed names the raw corner
    [rc]. *)
Theorem total_input_noise_rms_bandwidth_line
  (v i feedback_res g_res opamp_GBW filter_res filter_cap : float) :
  (0 <? feedback_res) = true -> (0 <? g_res) = true ->
  (0 <? filter_res) = true -> (0 <? filter_cap) = true ->
  let Req := feedback_res * g_res / (feedback_res + g_res) in
  let rn := PrimFloat.sqrt (4 * k * temp * Req) in
  let density :=
    PrimFloat.sqrt (v * v + Req * i * (Req * i) + rn * rn) in
  let product := 2 * pi * filter_res * filter_cap in
  let rc := 1 / product in
  let bb := 1.57 * (opamp_GBW / (1 + feedback_res / g_res)) in
  (product =? 0) = false -> (bb <? rc) = false ->
  overflows v = false -> overflows (Req * i) = false ->
  total_input_noise_rms v i feedback_res g_res opamp_GBW
    (PyFloat filter_res) (PyFloat filter_cap)
  = (inr (density * PrimFloat.sqrt (1.57 * rc)), [AtBandwidth rc]).
Proof.
  intros Hf Hg Hr Hc Req rn density product rc bb Hp Hcmp Hv Hi.
  pose proof (resistors_ok_positive _ _ Hf Hg) as Hres.
  rewrite total_input_noise_rms64_filtered;
    [| exact Hres | apply no_filter_truthy, truth_positive; exact Hr].
  change (product_of filter_res filter_cap) with product. rewrite Hp.
  change (rc_freq_of filter_res filter_cap) with rc.
  change (broadband_of feedback_res g_res opamp_GBW) with bb.
  rewrite Hcmp. unfold integrate, squares_overflow.
  change (Req_of feedback_res g_res) with Req. rewrite Hv, Hi.
  reflexivity.
Qed.

Lemma total_input_noise_rms_bandwidth_line_witness :
  total_input_noise_rms 5.8e-9 0.8e-12 5e3 5e3 2.7e6
    (PyFloat 10e3) (PyFloat 33e-6)
  = (inr 7.6615282343788384e-09, [AtBandwidth 0.48228770633907675]).
Proof.
  rewrite (total_input_noise_rms_bandwidth_line
             5.8e-9 0.8e-12 5e3 5e3 2.7e6 10e3 33e-6);
    vm_compute; reflexivity.
Defined.

(** X13: [current_noise_or_opamp_noise_dominant] raises
    [ZeroDivisionError] when the two resistors sum to zero; otherwise it
    returns a boolean that is [True] exactly when the voltage noise is
    greater than three times the current noise through the parallel
    resistance, as computed, and it then prints only the "Opamp noise
    dominant" line. *)
Theorem current_noise_or_opamp_noise_dominant_spec
  (feedback_res g_res opamp_input_current_noise opamp_input_voltage_noise
   : float) :
  let run :=
    current_noise_or_opamp_noise_dominant feedback_res g_res
      opamp_input_current_noise opamp_input_voltage_noise in
  let current_noise :=
    feedback_res * g_res / (feedback_res + g_res)
    * opamp_input_current_noise in
  ((feedback_res + g_res =? 0) = true -> run = raise ZeroDivisionError) /\
  ((feedback_res + g_res =? 0) = false ->
   exists b,
     returned run = inr b /\
     (b = true <-> (3 * current_noise <? opamp_input_voltage_noise) = true) /\
     (b = true ->
      stdout run = [Text (nl ++ "Opamp noise dominant over current noise.")])).
Proof.
  intros run current_noise. unfold run. split.
  - intros Es. unfold current_noise_or_opamp_noise_dominant,
      opamp_circuit_current_noise.
    rewrite parallel_res64_zero by exact Es. reflexivity.
  - intros Es. unfold current_noise_or_opamp_noise_dominant.
    rewrite opamp_circuit_current_noise64_ok by exact Es.
    rewrite bind64_ret_l.
    change (Req_of feedback_res g_res * opamp_input_current_noise)
      with current_noise.
    destruct (3 * current_noise <? opamp_input_voltage_noise) eqn:E1.
    + exists true. repeat split; reflexivity.
    + destruct (opamp_input_voltage_noise <? 3 * current_noise);
        exists false; repeat split; intros H; discriminate.
Qed.

(** X14: [broadband_or_white_noise_dominant] raises [ZeroDivisionError],
    with nothing printed, when the ground resistor or the noise gain is
    zero; otherwise it returns [True] exactly when the amplifier bandwidth
    [1.57 * (GBW / (1 + Rf / Rg))] is greater than ten times the corner
    frequency, as computed, and then prints that bandwidth. *)
Theorem broadband_or_white_noise_dominant_spec
  (feedback_res g_res opamp_GBW opamp_freq_corner : float) :
  let run :=
    broadband_or_white_noise_dominant feedback_res g_res opamp_GBW
      opamp_freq_corner in
  let ng := 1 + feedback_res / g_res in
  let bb := 1.57 * (opamp_GBW / ng) in
  ((g_res =? 0) = true \/ (ng =? 0) = true ->
   run = raise ZeroDivisionError) /\
  ((g_res =? 0) = false -> (ng =? 0) = false ->
   exists b,
     returned run = inr b /\
     (b = true <-> (10 * opamp_freq_corner <? bb) = true) /\
     (b = true ->
      stdout run
      = [Text (nl ++ "Broadband noise is dominant over 1/f noise.");
         BroadbandNoise bb])).
Proof.
  intros run ng bb. unfold run, broadband_or_white_noise_dominant. split.
  - intros H. destruct (g_res =? 0) eqn:Eg.
    + rewrite noise_gain64_zero by exact Eg. reflexivity.
    + destruct H as [H | H]; [discriminate |].
      rewrite noise_gain64_ok by exact Eg. rewrite bind64_ret_l.
      rewrite opamp_broadband_noise64_zero by exact H. reflexivity.
  - intros Eg En.
    rewrite noise_gain64_ok by exact Eg. rewrite bind64_ret_l.
    rewrite opamp_broadband_noise64_ok by exact En. rewrite bind64_ret_l.
    change (filter_order_default * (opamp_GBW / gain_of feedback_res g_res))
      with bb.
    destruct (10 * opamp_freq_corner <? bb) eqn:E1.
    + exists true. repeat split; reflexivity.
    + destruct (bb <? 10 * opamp_freq_corner);
        exists false; repeat split; intros H; discriminate.
Qed.

End Outcomes64.

(** ** The "Neither" branch, nan, and the command line *)

Section Diagnostics64.

Import Py64 Engine64.
Local Open Scope float_scope.

(** X15: [current_noise_or_opamp_noise_dominant] prints its "Neither" line
    exactly when three times the current noise, as computed, equals the
    voltage noise or one of the two is nan; the call then returns
    [False]. *)
Theorem current_noise_or_opamp_noise_dominant_neither
  (feedback_res g_res opamp_input_current_noise opamp_input_voltage_noise
   : float) :
  (feedback_res + g_res =? 0) = false ->
  let run :=
    current_noise_or_opamp_noise_dominant feedback_res g_res
      opamp_input_current_noise opamp_input_voltage_noise in
  let current_noise :=
    feedback_res * g_res / (feedback_res + g_res)
    * opamp_input_current_noise in
  let neither :=
    [Text (nl ++ "Neither current nor voltage noise is dominant.")] in
  (stdout run = neither <->
   (3 * current_noise =? opamp_input_voltage_noise) = true \/
   is_nan (3 * current_noise) = true \/
   is_nan opamp_input_voltage_noise = true) /\
  (stdout run = neither -> returned run = inr false).
Proof.
  intros Es run current_noise neither. unfold run, neither.
  unfold current_noise_or_opamp_noise_dominant.
  rewrite opamp_circuit_current_noise64_ok by exact Es.
  rewrite bind64_ret_l.
  change (Req_of feedback_res g_res * opamp_input_current_noise)
    with current_noise.
  destruct (3 * current_noise <? opamp_input_voltage_noise) eqn:E1;
    [| destruct (opamp_input_voltage_noise <? 3 * current_noise) eqn:E2].
  - split; [split |]; intros H; try discriminate H.
    apply tie_not_ltb in H. destruct H as [H _]. congruence.
  - split; [split |]; intros H; try discriminate H.
    apply tie_not_ltb in H. destruct H as [_ H]. congruence.
  - split; [split |]; intros _; try reflexivity.
    apply not_ltb_tie; assumption.
Qed.

(** At 5 kOhm and 5 kOhm, 0.3 pA/sqrt(Hz) and 2.25 nV/sqrt(Hz) the two
    sides tie after rounding. *)
Lemma current_noise_or_opamp_noise_dominant_neither_witness :
  current_noise_or_opamp_noise_dominant 5000 5000 3e-13 2.25e-09
  = (inr false,
     [Text (nl ++ "Neither current nor voltage noise is dominant.")]).
Proof.
  destruct (current_noise_or_opamp_noise_dominant_neither
              5000 5000 3e-13 2.25e-09 eq_refl) as [[_ Hout] Hret].
  assert (H : stdout (current_noise_or_opamp_noise_dominant
                        5000 5000 3e-13 2.25e-09)
              = [Text (nl ++ "Neither current nor voltage noise is dominant.")]).
  { apply Hout. left. vm_compute. reflexivity. }
  apply Hret in H as H'. unfold returned, stdout in *.
  destruct (current_noise_or_opamp_noise_dominant 5000 5000 3e-13 2.25e-09);
    cbn [fst snd] in *. congruence.
Defined.

(** X16: when the radicand [4 * k * temp * Req] of the thermal noise
    computes to a negative number, the thermal noise is nan, both
    comparisons of [resistor_or_opamp_noise_dominant] are false, and the
    call returns [False] after the "Neither" line, whatever the voltage
    noise. *)
Theorem resistor_or_opamp_noise_dominant_nan
  (feedback_res g_res opamp_input_voltage_noise : float) :
  (feedback_res + g_res =? 0) = false ->
  (4 * k * temp * (feedback_res * g_res / (feedback_res + g_res)) <? 0)
  = true ->
  is_nan (resistor_thermal_noise
            (feedback_res * g_res / (feedback_res + g_res))) = true /\
  resistor_or_opamp_noise_dominant feedback_res g_res
    opamp_input_voltage_noise
  = (inr false,
     [Text (nl ++ "Neither opamp votlage noise nor resistor noise is dominant.")]).
Proof.
  intros Es Hneg.
  assert (Hnan : is_nan (resistor_thermal_noise
                           (Req_of feedback_res g_res)) = true)
    by (apply sqrt_negative_nan; exact Hneg).
  split; [exact Hnan |].
  unfold resistor_or_opamp_noise_dominant.
  rewrite parallel_res64_ok by exact Es. rewrite bind64_ret_l.
  pose proof (mul_nan_r 3 _ Hnan) as H3.
  rewrite (ltb_nan_r _ _ H3), (ltb_nan_l _ _ H3). reflexivity.
Qed.

(** A negative ground resistor that makes the parallel resistance
    negative. *)
Lemma resistor_or_opamp_noise_dominant_nan_witness :
  resistor_or_opamp_noise_dominant 1e3 (-500) 1e-9
  = (inr false,
     [Text (nl ++ "Neither opamp votlage noise nor resistor noise is dominant.")]).
Proof.
  apply (resistor_or_opamp_noise_dominant_nan 1e3 (-500) 1e-9);
    vm_compute; reflexivity.
Defined.

(** Each classifier returns once its divisors are not zero. *)
Lemma resistor_or_opamp_noise_dominant64_returns
  (feedback_res g_res v : float) :
  (feedback_res + g_res =? 0) = false ->
  exists b out,
    resistor_or_opamp_noise_dominant feedback_res g_res v = (inr b, out).
Proof.
  intros Es. unfold resistor_or_opamp_noise_dominant.
  rewrite parallel_res64_ok by exact Es. rewrite bind64_ret_l.
  destruct (_ <? _); [| destruct (_ <? _)]; eexists; eexists; reflexivity.
Qed.

Lemma current_noise_or_opamp_noise_dominant64_returns
  (feedback_res g_res i v : float) :
  (feedback_res + g_res =? 0) = false ->
  exists b out,
    current_noise_or_opamp_noise_dominant feedback_res g_res i v
    = (inr b, out).
Proof.
  intros Es. unfold current_noise_or_opamp_noise_dominant.
  rewrite opamp_circuit_current_noise64_ok by exact Es.
  rewrite bind64_ret_l.
  destruct (_ <? _); [| destruct (_ <? _)]; eexists; eexists; reflexivity.
Qed.

Lemma broadband_or_white_noise_dominant64_returns
  (feedback_res g_res opamp_GBW corner : float) :
  (g_res =? 0) = false -> (gain_of feedback_res g_res =? 0) = false ->
  exists b out,
    broadband_or_white_noise_dominant feedback_res g_res opamp_GBW corner
    = (inr b, out).
Proof.
  intros Eg En. unfold broadband_or_white_noise_dominant.
  rewrite noise_gain64_ok by exact Eg. rewrite bind64_ret_l.
  rewrite opamp_broadband_noise64_ok by exact En. rewrite bind64_ret_l.
  destruct (_ <? _); [| destruct (_ <? _)]; eexists; eexists; reflexivity.
Qed.

(** The command line passes two floats as the filter: no [TypeError]. *)
Lemma total_input_noise_rms64_floats_no_type_error
  (v i feedback_res g_res opamp_GBW r c : float) :
  total_input_noise_rms v i feedback_res g_res opamp_GBW
    (PyFloat r) (PyFloat c) <> raise TypeError.
Proof.
  destruct (resistors_ok feedback_res g_res) eqn:Hres.
  - destruct (no_filter (PyFloat r) (PyFloat c)) eqn:Hnf.
    + rewrite total_input_noise_rms64_unfiltered by assumption.
      unfold integrate. destruct (squares_overflow _ _ _ _); discriminate.
    + rewrite total_input_noise_rms64_filtered by assumption.
      unfold integrate.
      destruct (_ =? 0); [discriminate |].
      destruct (_ <? _); destruct (squares_overflow _ _ _ _); discriminate.
  - rewrite total_input_noise_rms64_resistor_error by exact Hres.
    discriminate.
Qed.

(** The script, once the engine call has returned. *)
Lemma main64_after_engine
  (v i opamp_GBW corner res_feedback res_g filter_res filter_cap x hz
   : float) :
  total_input_noise_rms v i res_feedback res_g opamp_GBW
    (PyFloat filter_res) (PyFloat filter_cap) = (inr x, [AtBandwidth hz]) ->
  resistors_ok res_feedback res_g = true ->
  main v i opamp_GBW corner res_feedback res_g filter_res filter_cap
  = (inr tt,
     [AtBandwidth hz; TotalOutputNoise (x * (res_feedback / res_g))]
     ++ stdout (resistor_or_opamp_noise_dominant res_feedback res_g v)
     ++ stdout (current_noise_or_opamp_noise_dominant res_feedback res_g i v)
     ++ stdout (broadband_or_white_noise_dominant
                  res_feedback res_g opamp_GBW corner)).
Proof.
  intros Hrun Hres.
  destruct (resistors_ok_inv _ _ Hres) as (Es & Eg & En).
  destruct (resistor_or_opamp_noise_dominant64_returns
              res_feedback res_g v Es) as (b1 & o1 & H1).
  destruct (current_noise_or_opamp_noise_dominant64_returns
              res_feedback res_g i v Es) as (b2 & o2 & H2).
  destruct (broadband_or_white_noise_dominant64_returns
              res_feedback res_g opamp_GBW corner Eg En) as (b3 & o3 & H3).
  unfold main. rewrite inverting_opamp_gain64_ok by exact Eg.
  rewrite bind64_ret_l. rewrite Hrun, H1, H2, H3.
  cbn [bind print ret stdout snd app total_output_noise_rms].
  rewrite app_nil_r. reflexivity.
Qed.

(** X17: the script succeeds exactly when its call to
    [total_input_noise_rms] returns; when that call would raise, the script
    ends with the same exception ([ZeroDivisionError] or [OverflowError];
    the command line never passes [None]) and has printed nothing. *)
Theorem main_succeeds_iff
  (v i opamp_GBW corner res_feedback res_g filter_res filter_cap : float) :
  let script :=
    main v i opamp_GBW corner res_feedback res_g filter_res filter_cap in
  let call :=
    total_input_noise_rms v i res_feedback res_g opamp_GBW
      (PyFloat filter_res) (PyFloat filter_cap) in
  (returned script = inr tt <-> exists x, returned call = inr x) /\
  (forall e, returned script = inl e <-> returned call = inl e) /\
  (forall e, returned script = inl e ->
     stdout script = [] /\ (e = ZeroDivisionError \/ e = OverflowError)).
Proof.
  intros script call.
  destruct (total_input_noise_rms64_cases v i res_feedback res_g opamp_GBW
              (PyFloat filter_res) (PyFloat filter_cap))
    as [(e & Hrun & Hwhy) | (x & hz & Hrun & Hres & _ & _)];
    fold call in Hrun.
  - assert (Hs : script = raise e).
    { unfold script, main, inverting_opamp_gain, truediv.
      destruct (res_g =? 0) eqn:Eg.
      - assert (Hres : resistors_ok res_feedback res_g = false).
        { unfold resistors_ok. rewrite Eg.
          destruct (negb (res_feedback + res_g =? 0)); reflexivity. }
        unfold call in Hrun.
        rewrite total_input_noise_rms64_resistor_error in Hrun
          by exact Hres.
        unfold raise in Hrun. injection Hrun as <-. reflexivity.
      - rewrite !bind64_ret_l. fold call. rewrite Hrun. reflexivity. }
    assert (He : e = ZeroDivisionError \/ e = OverflowError).
    { destruct e; auto. exfalso.
      apply (total_input_noise_rms64_floats_no_type_error
               v i res_feedback res_g opamp_GBW filter_res filter_cap).
      exact Hrun. }
    rewrite Hs, Hrun. cbn [returned stdout raise fst snd].
    split; [| split].
    + split; [discriminate | intros [x Hx]; discriminate].
    + intros e'. split; intros H; injection H as <-; reflexivity.
    + intros e' He'. injection He' as <-. split; [reflexivity | exact He].
  - unfold script.
    rewrite (main64_after_engine _ _ _ _ _ _ _ _ x hz Hrun Hres).
    fold call. rewrite Hrun. cbn [returned fst].
    split; [| split].
    + split; [intros _; eauto | reflexivity].
    + intros e. split; discriminate.
    + intros e He. discriminate.
Qed.

(** X18: what a successful run prints, in order: the bandwidth line of
    [total_input_noise_rms], the total output noise, which is the input
    noise times [res_feedback / res_g], then the lines of the three
    classifiers. *)
Theorem main_output
  (v i opamp_GBW corner res_feedback res_g filter_res filter_cap x : float)
  (l : line) :
  total_input_noise_rms v i res_feedback res_g opamp_GBW
    (PyFloat filter_res) (PyFloat filter_cap) = (inr x, [l]) ->
  main v i opamp_GBW corner res_feedback res_g filter_res filter_cap
  = (inr tt,
     [l; TotalOutputNoise (x * (res_feedback / res_g))]
     ++ stdout (resistor_or_opamp_noise_dominant res_feedback res_g v)
     ++ stdout (current_noise_or_opamp_noise_dominant res_feedback res_g i v)
     ++ stdout (broadband_or_white_noise_dominant
                  res_feedback res_g opamp_GBW corner)).
Proof.
  intros Hrun.
  destruct (total_input_noise_rms64_cases v i res_feedback res_g opamp_GBW
              (PyFloat filter_res) (PyFloat filter_cap))
    as [(e & Hrun' & _) | (x' & hz & Hrun' & Hres & _ & _)].
  - rewrite Hrun in Hrun'. discriminate.
  - rewrite Hrun in Hrun'. injection Hrun' as -> ->.
    apply main64_after_engine; assumption.
Qed.

(** The script with the defaults of its command line. *)
Lemma main_output_witness :
  main 1.0e-9 21.7e-12 80e6 20 100e3 1e3 5e3 4.7e-9
  = (inr tt,
     [AtBandwidth 6772.5507698678875;
      TotalOutputNoise 0.00022554046825262562;
      Text (nl ++ "Bad, resistor noise is dominant over opamp voltage noise.");
      Text "Try to reduce feedback resistor values.";
      Text "Low noise opamp not necessary.";
      Text (nl ++ "Current noise dominant over voltage noise.");
      Text "Try to reduce feedback resistor values.";
      Text "Try using a JFET/CMOS opamp.";
      Text (nl ++ "Broadband noise is dominant over 1/f noise.");
      BroadbandNoise 1243564.3564356435]).
Proof.
  rewrite (main_output 1.0e-9 21.7e-12 80e6 20 100e3 1e3 5e3 4.7e-9
             2.2554046825262564e-06 (AtBandwidth 6772.5507698678875));
    vm_compute; reflexivity.
Defined.

End Diagnostics64.
